(** * Data_Simulation/data_generate.py: synthetic fraud transactions

    A shallow embedding of [generate_fraud_data_chunk] and [stream_to_csv].

    The two generators the program draws from (the [random] module's hidden
    generator and Faker's own one) are explicit state: each is a tape of raw
    draws with a cursor, and every library call consumes one draw.  The tapes
    are arbitrary, so a statement proved for every world holds for every
    outcome of the random calls.  Errors are Python exceptions; a raise keeps
    the world reached so far, because what was appended to the file stays. *)

From Stdlib Require Import ZArith List String Ascii Bool Lia DecimalString.
Import ListNotations.

Local Open Scope string_scope.
Local Open Scope list_scope.
Local Open Scope Z_scope.

(** ** Rows, files and the world *)

(** The dict appended to [data] for one transaction.  Amounts are floats
    rounded to two decimals in the source; they are kept here as the exact
    number of hundredths, so [transaction_amount = 65000] is [650.00]. *)
Record Transaction := mkTransaction {
  transaction_id : string;
  user_id : string;
  transaction_timestamp : Z;
  transaction_amount : Z;
  merchant_id : string;
  merchant_category : string;
  payment_method : string;
  ip_address : string;
  geolocation : string;
  device_id : string;
  device_type : string;
  transaction_type : string;
  transaction_status : string;
  is_fraud : bool;
  risk_score : Z
}.

(** A line of the delimited output: the header naming the columns, or the
    data line of one row. *)
Inductive Line :=
| Header (columns : list string)
| Data (row : Transaction).

Record World := mkWorld {
  mt : nat -> Z;      (* draws of the random module, in order *)
  mt_pos : nat;
  fk : nat -> Z;      (* draws of Faker's generator, in order *)
  fk_pos : nat;
  fs : string -> option (list Line)   (* files by path; None: absent *)
}.

(** What a process gets from outside the program and its seeds: the keyed
    [hash] of [str] (the key is chosen per process), the wall clock, and
    Faker's providers as functions of the draw they consume.  The clock is
    [now] when the process starts and has moved on by [elapsed n] seconds
    when Faker's generator has been used [n] times. *)
Record Env := mkEnv {
  py_hash : string -> Z;
  now : Z;
  elapsed : nat -> Z;
  uuid_of : Z -> string;
  city_of : Z -> string;
  state_abbr_of : Z -> string;
  ipv4_private_of : Z -> string;
  ipv4_public_of : Z -> string
}.

(** ** Exceptions and the state-and-exception monad *)

(** [OSError] stands for all its subclasses (FileExistsError,
    NotADirectoryError, PermissionError and so on). *)
Inductive exn := IndexError | ValueError | OSError.

Inductive result (A : Type) :=
| Ok (a : A) (w : World)
| Raise (e : exn) (w : World).
Arguments Ok {A} a w.
Arguments Raise {A} e w.

Definition M (A : Type) : Type := World -> result A.

Definition ret {A} (a : A) : M A := fun w => Ok a w.

Definition raise {A} (e : exn) : M A := fun w => Raise e w.

Definition bind {A B} (m : M A) (f : A -> M B) : M B :=
  fun w => match m w with
           | Ok a w' => f a w'
           | Raise e w' => Raise e w'
           end.

Notation "x <- m ;; k" := (bind m (fun x => k))
  (at level 61, m at next level, right associativity).
Notation "' p <- m ;; k" := (bind m (fun x => let p := x in k))
  (at level 61, p pattern, m at next level, right associativity).

(** [[m for _ in range(n)]], and equally a loop that appends [m]'s value
    to a list [n] times. *)
Fixpoint replicateM {A} (n : nat) (m : M A) : M (list A) :=
  match n with
  | O => ret []
  | S n' => x <- m ;; xs <- replicateM n' m ;; ret (x :: xs)
  end.

(** [range(n)] runs [n] times, and not at all for a negative [n]. *)
Definition range_len (n : Z) : nat := Z.to_nat n.

(** [range(start, stop, step)]: no range for a zero step. *)
Definition py_range (start stop step : Z) : option (list Z) :=
  if step =? 0 then None
  else
    let len := if 0 <? step
               then (stop - start + step - 1) / step
               else (start - stop - step - 1) / (- step) in
    Some (map (fun k => start + step * Z.of_nat k) (seq 0 (Z.to_nat len))).

(** ** The random module *)

Definition next_mt : M Z :=
  fun w => Ok (mt w (mt_pos w))
              (mkWorld (mt w) (S (mt_pos w)) (fk w) (fk_pos w) (fs w)).

Definition next_fk : M Z :=
  fun w => Ok (fk w (fk_pos w))
              (mkWorld (mt w) (mt_pos w) (fk w) (S (fk_pos w)) (fs w)).

(** [random.random()] is [k / 2^53] for an integer [0 <= k < 2^53]; the
    numerator [k] stands for it. *)
Definition two53 : Z := 2 ^ 53.

Definition random_random : M Z :=
  d <- next_mt ;; ret (d mod two53).

(** A float literal as the dyadic rational [n / 2^e] it denotes. *)
Definition dyadic : Type := (Z * Z)%type.
Definition lit_0_7 : dyadic := (3152519739159347, 52).
Definition lit_0_3 : dyadic := (5404319552844595, 54).
Definition lit_0_05 : dyadic := (3602879701896397, 56).

(** [k / 2^53 < n / 2^e] *)
Definition unit_ltb (k : Z) (c : dyadic) : bool :=
  k * 2 ^ snd c <? fst c * two53.

Definition randint (a b : Z) : M Z :=
  if b <? a then raise ValueError
  else d <- next_mt ;; ret (a + d mod (b - a + 1)).

Definition choice {A} (l : list A) : M A :=
  match l with
  | [] => raise IndexError
  | x :: _ => d <- next_mt ;;
              ret (nth (Z.to_nat (d mod Z.of_nat (List.length l))) l x)
  end.

Fixpoint accumulate (acc : Z) (ws : list Z) : list Z :=
  match ws with
  | [] => []
  | x :: ws' => (acc + x) :: accumulate (acc + x) ws'
  end.

(** The float nearest to [m / 2^53], as the numerator [n] of [n / 2^53]:
    [m] rounded to 53 significant bits, ties to the even one. *)
Definition round53 (m : Z) : Z :=
  let bits := Z.log2 m + 1 in
  if (m <=? 0) || (bits <=? 53) then m
  else
    let s := bits - 53 in
    let q := m / 2 ^ s in
    let r := m mod 2 ^ s in
    let half := 2 ^ (s - 1) in
    let q := if (half <? r) || ((r =? half) && Z.odd q) then q + 1 else q in
    q * 2 ^ s.

(** [bisect(cum, random() * total, 0, hi)] on an increasing [cum], for
    [random() = k / 2^53]: how many of its first [hi] entries are at most
    the float product. *)
Fixpoint bisect (cum : list Z) (k total : Z) (hi : nat) : nat :=
  match hi, cum with
  | S hi', c :: cum' =>
      if c * two53 <=? round53 (k * total)
      then S (bisect cum' k total hi') else O
  | _, _ => O
  end.

(** [random.choices(population, weights=ws)[0]] *)
Definition choices {A} (population : list A) (ws : list Z) : M A :=
  match population with
  | [] => raise IndexError
  | x :: _ =>
      k <- random_random ;;
      let cum := accumulate 0 ws in
      let total := last cum 0 in
      ret (nth (bisect cum k total (List.length population - 1)) population x)
  end.

(** [round(random.uniform(a, b), 2)] in hundredths.  [uniform] returns
    [a + (b - a) * random()], which lies between [a] and [b]; rounded to two
    decimals it is one of the hundredths between them, and any of them may
    come out. *)
Definition uniform_round2 (a b : Z) : M Z :=
  d <- next_mt ;;
  let lo := 100 * Z.min a b in
  let hi := 100 * Z.max a b in
  ret (lo + d mod (hi - lo + 1)).

(** ** Strings *)

(** [s.startswith(tuple)] *)
Definition startswith (s : string) (prefixes : list string) : bool :=
  existsb (fun p => String.prefix p s) prefixes.

(** The text of [s] up to and including its first dot; all of [s] when it
    has none. *)
Fixpoint leading_group (s : string) : string :=
  match s with
  | EmptyString => EmptyString
  | String c s' =>
      if Ascii.eqb c "."%char then String c EmptyString
      else String c (leading_group s')
  end.

Fixpoint zeros (n : nat) : string :=
  match n with
  | O => EmptyString
  | S n' => String "0"%char (zeros n')
  end.

(** [f"{n:04d}"] for [n >= 0] *)
Definition format_04d (n : Z) : string :=
  let digits := NilZero.string_of_uint (N.to_uint (Z.to_N n)) in
  zeros (4 - String.length digits) ++ digits.

(** [dict.get(key, default)] on a dict given by its items *)
Fixpoint dict_get {V} (d : list (string * V)) (key : string) (default : V) : V :=
  match d with
  | [] => default
  | (k, v) :: d' => if String.eqb k key then v else dict_get d' key default
  end.

(** ** Frames and files *)

Record DataFrame := mkDataFrame {
  columns : list string;
  rows : list Transaction
}.

Definition COLUMNS : list string :=
  ["transaction_id"; "user_id"; "transaction_timestamp";
   "transaction_amount"; "merchant_id"; "merchant_category";
   "payment_method"; "ip_address"; "geolocation"; "device_id";
   "device_type"; "transaction_type"; "transaction_status"; "is_fraud";
   "risk_score"].

(** [pd.DataFrame(data)]: the columns are the keys of the dicts, so there
    are none when [data] is empty. *)
Definition pd_DataFrame (data : list Transaction) : DataFrame :=
  mkDataFrame (match data with [] => [] | _ :: _ => COLUMNS end) data.

Definition csv_lines (df : DataFrame) (header : bool) : list Line :=
  (if header then [Header (columns df)] else []) ++ map Data (rows df).

Definition fs_append (f : string -> option (list Line)) (path : string)
    (ls : list Line) : string -> option (list Line) :=
  fun p => if String.eqb p path
           then Some (match f path with Some old => old | None => [] end ++ ls)
           else f p.

(** [df.to_csv(path, mode='a', header=header, index=False)] on a system
    that does it; [OS.to_csv] below is the call that can be refused. *)
Definition to_csv (df : DataFrame) (path : string) (header : bool) : M unit :=
  fun w => Ok tt (mkWorld (mt w) (mt_pos w) (fk w) (fk_pos w)
                          (fs_append (fs w) path (csv_lines df header))).

(** [s.split(sep)] *)
Fixpoint split_on (sep : ascii) (s : string) : list string :=
  match s with
  | EmptyString => [EmptyString]
  | String c s' =>
      if Ascii.eqb c sep then EmptyString :: split_on sep s'
      else match split_on sep s' with
           | [] => [String c EmptyString]
           | x :: xs => String c x :: xs
           end
  end.

Fixpoint leading_slashes (s : string) : nat :=
  match s with
  | String "/" s' => S (leading_slashes s')
  | _ => O
  end.

(** A [PurePosixPath]: the root ("", "/" or "//") and the parts below it. *)
Record Path := mkPath {
  path_root : string;
  path_parts : list string
}.

(** [Path(s)]: two leading slashes are a root of their own, any other
    number of them is "/"; empty parts and "." are dropped, ".." is kept. *)
Definition parse_path (s : string) : Path :=
  mkPath
    (match leading_slashes s with
     | O => ""
     | 2%nat => "//"
     | _ => "/"
     end)
    (filter (fun part => negb (String.eqb part "" || String.eqb part "."))
       (split_on "/" s)).

(** [p / q]: an absolute [q] replaces [p]. *)
Definition joinpath (p q : Path) : Path :=
  if String.eqb (path_root q) "" then
    mkPath (path_root p) (path_parts p ++ path_parts q)
  else q.

(** [str(p)] *)
Definition path_str (p : Path) : string :=
  match path_parts p with
  | [] => if String.eqb (path_root p) "" then "." else path_root p
  | _ :: _ => path_root p ++ String.concat "/" (path_parts p)
  end.

(** [Path(output_dir) / filename], as the string handed to [to_csv] *)
Definition path_join (output_dir filename : string) : string :=
  path_str (joinpath (parse_path output_dir) (parse_path filename)).

(** ** Module constants *)

Definition MERCHANTS : list (string * string) :=
  [("amazon", "online"); ("walmart", "retail"); ("mcdonalds", "restaurant");
   ("shell", "gas"); ("starbucks", "restaurant"); ("target", "retail");
   ("uber", "transport"); ("netflix", "subscription"); ("paypal", "financial");
   ("apple", "online"); ("google", "online"); ("microsoft", "online")].

Definition COUNTRIES : list string :=
  ["US"; "GB"; "DE"; "FR"; "CA"; "IN"; "BR"; "ZA"; "NG"; "CN"; "RU"].

Definition amount_ranges : list (string * (Z * Z)) :=
  [("restaurant", (5, 150)); ("retail", (10, 500)); ("gas", (20, 100));
   ("online", (15, 300)); ("transport", (10, 80)); ("subscription", (5, 50));
   ("financial", (50, 1000))].

(** The additive rule of the loop body before the noise is added.  Amounts
    are hundredths, so [amount > 500] reads [amount >? 50000]. *)
Definition fraud_rules (amount hour : Z)
    (merchant_category payment_method transaction_status : string)
    (is_private_ip : bool) : Z :=
  let fraud_score := 0 in
  let fraud_score := if amount >? 50000 then fraud_score + 30 else fraud_score in
  let fraud_score := if amount >? 100000 then fraud_score + 20 else fraud_score in
  let fraud_score := if (hour <? 6) || (hour >? 23)
                     then fraud_score + 15 else fraud_score in
  let fraud_score := if String.eqb merchant_category "online"
                     then fraud_score + 10 else fraud_score in
  let fraud_score := if String.eqb payment_method "digital_wallet"
                     then fraud_score + 5 else fraud_score in
  let fraud_score := if String.eqb transaction_status "failed"
                     then fraud_score + 25 else fraud_score in
  let fraud_score := if is_private_ip then fraud_score + 20 else fraud_score in
  fraud_score.

(** [max(0, min(100, fraud_score))] *)
Definition clamp (fraud_score : Z) : Z := Z.max 0 (Z.min 100 fraud_score).

(** The local variables of one pass of the loop that the row does not
    keep, next to the row appended. *)
Record Locals := mkLocals {
  row : Transaction;
  hour : Z;
  first_amount : Z;          (* amount before the draw that may replace it *)
  is_private_ip : bool;
  noise : Z;                 (* random.randint(-5, 10) *)
  fraud_score : Z;           (* after the noise was added *)
  fraud_draw : option Z      (* the draw of the flag's gate, when made *)
}.

Section Program.

Variable env : Env.

(** ** Faker *)

Definition uuid4 : M string :=
  d <- next_fk ;; ret (uuid_of env d).

Definition city : M string :=
  d <- next_fk ;; ret (city_of env d).

Definition state_abbr : M string :=
  d <- next_fk ;; ret (state_abbr_of env d).

Definition ipv4_private : M string :=
  d <- next_fk ;; ret (ipv4_private_of env d).

Definition ipv4_public : M string :=
  d <- next_fk ;; ret (ipv4_public_of env d).

(** ['-2y']: Faker counts a year as 365.24 days, so 730.48 days. *)
Definition two_years : Z := 73048 * 864.

(** The clock at this moment of the run. *)
Definition clock : M Z :=
  fun w => Ok (now env + elapsed env (fk_pos w)) w.

(** [fake.date_time_between(start_date='-2y', end_date='now')], in seconds *)
Definition date_time_between : M Z :=
  t <- clock ;;
  let start := t - two_years in
  d <- next_fk ;; ret (start + d mod (t - start + 1)).

(** [t.replace(hour=hour)] *)
Definition replace_hour (t hour : Z) : M Z :=
  if (hour <? 0) || (23 <? hour) then raise ValueError
  else ret (t - ((t mod 86400) / 3600) * 3600 + hour * 3600).

(** ** generate_fraud_data_chunk *)

(** One pass of [for _ in range(num_records)]. *)
Definition loop_body (users : list string) : M Locals :=
  user_id <- choice users ;;
  '(merchant_name, merchant_category) <- choice MERCHANTS ;;
  device_type <- choice ["mobile"; "desktop"; "tablet"] ;;
  u <- random_random ;;
  hour <- (if unit_ltb u lit_0_7 then randint 8 22 else randint 0 23) ;;
  t <- date_time_between ;;
  transaction_time <- replace_hour t hour ;;
  let '(min_amt, max_amt) := dict_get amount_ranges merchant_category (10, 200) in
  amount <- uniform_round2 min_amt max_amt ;;
  let first_amount := amount in
  amount <- (if amount >? 30000
             then g <- random_random ;;
                  if unit_ltb g lit_0_7 then uniform_round2 min_amt 300
                  else ret amount
             else ret amount) ;;
  payment_method <- choices
    ["credit_card"; "debit_card"; "digital_wallet"; "bank_transfer"]
    [45; 35; 15; 5] ;;
  country <- choice COUNTRIES ;;
  c <- city ;;
  s <- state_abbr ;;
  let location := (c ++ ", " ++ s ++ ", " ++ country)%string in
  p <- random_random ;;
  ip_address <- (if unit_ltb p lit_0_05 then ipv4_private else ipv4_public) ;;
  let is_private_ip := startswith ip_address ["10."; "192."; "172."] in
  let device_id :=
    ("device_" ++ format_04d (py_hash env user_id mod 10000))%string in
  transaction_type <- choices
    ["purchase"; "withdrawal"; "transfer"; "refund"] [75; 15; 8; 2] ;;
  transaction_status <- choices
    ["completed"; "failed"; "pending"] [92; 6; 2] ;;
  let fraud_score := fraud_rules amount hour merchant_category payment_method
                       transaction_status is_private_ip in
  noise <- randint (-5) 10 ;;
  let fraud_score := fraud_score + noise in
  let risk_score := clamp fraud_score in
  '(is_fraud, fraud_draw) <-
     (if risk_score >? 70
      then q <- random_random ;; ret (unit_ltb q lit_0_3, Some q)
      else ret (false, None)) ;;
  transaction_id <- uuid4 ;;
  ret (mkLocals
         (mkTransaction transaction_id user_id transaction_time amount
            ("merchant_" ++ merchant_name)%string merchant_category payment_method
            ip_address location device_id device_type transaction_type
            transaction_status is_fraud risk_score)
         hour first_amount is_private_ip noise fraud_score fraud_draw).

(** [[fake.uuid4() for _ in range(num_records // 8)]] *)
Definition make_users (num_records : Z) : M (list string) :=
  replicateM (range_len (num_records / 8)) uuid4.

(** The passes of the loop of [generate_fraud_data_chunk], with their
    local variables. *)
Definition generate_trace (num_records : Z) : M (list string * list Locals) :=
  users <- make_users num_records ;;
  data <- replicateM (range_len num_records) (loop_body users) ;;
  ret (users, data).

Definition generate_fraud_data_chunk (num_records : Z) : M DataFrame :=
  '(_, data) <- generate_trace num_records ;;
  ret (pd_DataFrame (map row data)).

(** ** stream_to_csv *)

(** The loop over the offsets, with [first_chunk] as its state. *)
Fixpoint write_chunks (full_path : string) (total_records chunk_size : Z)
    (offsets : list Z) (first_chunk : bool) : M unit :=
  match offsets with
  | [] => ret tt
  | i :: rest =>
      chunk_df <- generate_fraud_data_chunk (Z.min chunk_size (total_records - i)) ;;
      _ <- to_csv chunk_df full_path first_chunk ;;
      write_chunks full_path total_records chunk_size rest false
  end.

(** [stream_to_csv] from line 139 on, on a system that does all it is
    asked; with the directory of line 138 and the refusals of the system
    it is [OS.stream_to_csv] below. *)
Definition stream_to_csv (filename output_dir : string)
    (total_records chunk_size : Z) : M unit :=
  let full_path := path_join output_dir filename in
  match py_range 0 total_records chunk_size with
  | None => raise ValueError
  | Some offsets =>
      write_chunks full_path total_records chunk_size offsets true
  end.

End Program.

(** ** A concrete environment and concrete worlds

    Stand-ins for what lies outside the program, to run it on. *)

Definition decimal (n : Z) : string :=
  NilZero.string_of_uint (N.to_uint (Z.to_N n)).

Definition dotted_quad (a : Z) : string :=
  decimal (a / 16777216 mod 256) ++ "." ++ decimal (a / 65536 mod 256) ++ "."
  ++ decimal (a / 256 mod 256) ++ "." ++ decimal (a mod 256).

(** A keyed polynomial hash of the characters. *)
Fixpoint keyed_hash (key : Z) (s : string) : Z :=
  match s with
  | EmptyString => key
  | String c s' =>
      keyed_hash (Z.lxor (key * 1000003) (Z.of_nat (nat_of_ascii c))
                  mod 2 ^ 63) s'
  end.

Definition sample_env (key clock : Z) : Env :=
  mkEnv (keyed_hash key)
        clock
        (fun n => Z.of_nat n / 1000)
        (fun d => ("u" ++ decimal (d mod 2 ^ 128))%string)
        (fun d => ("City" ++ decimal (d mod 1000))%string)
        (fun d => nth (Z.to_nat (d mod 3)) ["CA"; "NY"; "TX"] "CA")
        (fun d => dotted_quad (167772160 + d mod 16777216))
        (fun d => dotted_quad (d mod 2 ^ 32)).

Definition tape (draws : list Z) : nat -> Z :=
  fun n => nth n draws 0.

Definition no_files : string -> option (list Line) := fun _ => None.

Definition world_of (mt_draws fk_draws : list Z) : World :=
  mkWorld (tape mt_draws) 0 (tape fk_draws) 0 no_files.

(** A first pass with a financial merchant, hour 3, amount 650.00 kept,
    digital wallet, a private address, status failed and noise 0: the rules
    give 95; the gate of the flag then draws above 0.3. *)
Definition risky_draws : list Z :=
  [0; 8; 0; two53 - 1; 3; 60000; two53 - 1; 7656119366529843; 0; 0;
   0; 8556839292003942; 5; two53 - 1].

Definition risky_world : World := world_of risky_draws [7; 100; 1; 2; 65793; 9].

Definition plain_world : World := world_of [] [].

Definition env0 : Env := sample_env 1 1793750400.

(** One run of the program on 8 records in one chunk. *)
Definition run8 (env : Env) (w : World) : result unit :=
  stream_to_csv env "fraud_data.csv" "out" 8 8 w.

(** What one pass of the loop guarantees about its locals and its row. *)
Definition body_post (env : Env) (users : list string) (l : Locals) : Prop :=
  let r := row l in
  In (user_id r) users /\
  0 <= hour l <= 23 /\
  transaction_timestamp r mod 86400 / 3600 = hour l /\
  (let '(min_amt, max_amt) :=
     dict_get amount_ranges (merchant_category r) (10, 200) in
   100 * min_amt <= transaction_amount r <= 100 * max_amt) /\
  transaction_amount r <= first_amount l /\
  is_private_ip l = startswith (ip_address r) ["10."; "192."; "172."] /\
  -5 <= noise l <= 10 /\
  fraud_score l =
    fraud_rules (transaction_amount r) (hour l) (merchant_category r)
      (payment_method r) (transaction_status r) (is_private_ip l) + noise l /\
  risk_score r = clamp (fraud_score l) /\
  match fraud_draw l with
  | Some q => 70 < risk_score r /\ 0 <= q < two53 /\
              is_fraud r = unit_ltb q lit_0_3
  | None => risk_score r <= 70 /\ is_fraud r = false
  end /\
  device_id r
  = ("device_" ++ format_04d (py_hash env (user_id r) mod 10000))%string.

(** The file at [path] after a run, whether it ended or raised. *)
Definition file_after {A} (r : result A) (path : string) : option (list Line) :=
  match r with
  | Ok _ w => fs w path
  | Raise _ w => fs w path
  end.

(** A new process under the same seeds: both generators start over, the
    files are as the last process left them. *)
Definition restart (w : World) : World :=
  mkWorld (mt w) 0 (fk w) 0 (fs w).

Definition world_after {A} (r : result A) : World :=
  match r with
  | Ok _ w => w
  | Raise _ w => w
  end.

(** The sizes the writer asks the synthesizer for, in order. *)
Definition batch_sizes (total_records chunk_size : Z) : list Z :=
  match py_range 0 total_records chunk_size with
  | None => []
  | Some offsets => map (fun i => Z.min chunk_size (total_records - i)) offsets
  end.

Definition is_header (l : Line) : bool :=
  match l with Header _ => true | Data _ => false end.

Definition is_data (l : Line) : bool :=
  match l with Header _ => false | Data _ => true end.

(** The lines of the file at [path]; none when it is absent. *)
Definition contents (f : string -> option (list Line)) (path : string)
    : list Line :=
  match f path with
  | Some old => old
  | None => []
  end.

(** The header a run writes: one, unless there is no batch at all. *)
Definition header_of_run (sizes : list Z) : list Line :=
  match sizes with
  | [] => []
  | _ :: _ => [Header COLUMNS]
  end.

Fixpoint dot_free (s : string) : bool :=
  match s with
  | EmptyString => true
  | String c s' => negb (Ascii.eqb c "."%char) && dot_free s'
  end.

(** ** Further notions for the statements below *)

(** The same world with other files. *)
Definition with_fs (w : World) (f : string -> option (list Line)) : World :=
  mkWorld (mt w) (mt_pos w) (fk w) (fk_pos w) f.

Definition result_with_fs {A} (r : result A)
    (f : string -> option (list Line)) : result A :=
  match r with
  | Ok a w => Ok a (with_fs w f)
  | Raise e w => Raise e (with_fs w f)
  end.

(** Code that neither reads nor writes the files: run on other files it
    does the same and leaves them as they are. *)
Definition fs_blind {A} (m : M A) : Prop :=
  forall (w : World) (f : string -> option (list Line)),
    m (with_fs w f) = result_with_fs (m w) f.

Definition sum_sizes (sizes : list Z) : Z := fold_right Z.add 0 sizes.

(** More of what one pass of the loop guarantees. *)
Definition body_more (env : Env) (l : Locals) : Prop :=
  let r := row l in
  (exists name : string,
     In (name, merchant_category r) MERCHANTS /\
     merchant_id r = ("merchant_" ++ name)%string) /\
  In (device_type r) ["mobile"; "desktop"; "tablet"] /\
  In (payment_method r)
     ["credit_card"; "debit_card"; "digital_wallet"; "bank_transfer"] /\
  In (transaction_type r) ["purchase"; "withdrawal"; "transfer"; "refund"] /\
  In (transaction_status r) ["completed"; "failed"; "pending"] /\
  (exists (c s country : string),
     In country COUNTRIES /\
     geolocation r = (c ++ ", " ++ s ++ ", " ++ country)%string) /\
  (let '(min_amt, max_amt) :=
     dict_get amount_ranges (merchant_category r) (10, 200) in
   100 * min_amt <= first_amount l <= 100 * max_amt) /\
  (transaction_amount r <> first_amount l ->
   30000 < first_amount l /\ transaction_amount r <= 30000).

(** ** Runs on an operating system

    [stream_to_csv] above is the run in which the system does all it is
    asked.  Here the calls that reach the system, [mkdir] and the append of
    [to_csv], can be refused: its answers are a tape like the draws, and
    every statement on [OS.stream_to_csv] holds for every tape.  A line
    is written whole or not at all. *)
Module OS.

(** The answer to one call: the system does it, or it raises an OSError
    after [done] steps of it. *)
Inductive answer :=
| Does
| Refuses (done : nat).

Record Sys := mkSys {
  world : World;
  dirs : list string;        (* directories the run has made sure of *)
  answers : nat -> answer;   (* the answers of the system, in order *)
  asked : nat
}.

Inductive outcome (A : Type) :=
| Done (a : A) (s : Sys)
| Failed (e : exn) (s : Sys).
Arguments Done {A} a s.
Arguments Failed {A} e s.

Definition IO (A : Type) : Type := Sys -> outcome A.

Definition and_then {A B} (m : IO A) (k : A -> IO B) : IO B :=
  fun s => match m s with
           | Done a s' => k a s'
           | Failed e s' => Failed e s'
           end.

(** Code that asks nothing of the system. *)
Definition lift {A} (m : M A) : IO A :=
  fun s => match m (world s) with
           | Ok a w => Done a (mkSys w (dirs s) (answers s) (asked s))
           | Raise e w => Failed e (mkSys w (dirs s) (answers s) (asked s))
           end.

(** The directories on the way to [p], the outermost first, [p] last. *)
Definition ancestors (p : Path) : list string :=
  map (fun k => path_str (mkPath (path_root p) (firstn k (path_parts p))))
      (seq 1 (List.length (path_parts p))).

(** [p.mkdir(parents=True, exist_ok=True)]: when it is done, [p] and the
    directories on the way to it exist; a refusal comes after some of them
    were made. *)
Definition mkdir (p : Path) : IO unit :=
  fun s =>
    match answers s (asked s) with
    | Does =>
        Done tt (mkSys (world s) (ancestors p ++ dirs s)
                   (answers s) (S (asked s)))
    | Refuses done =>
        Failed OSError (mkSys (world s) (firstn done (ancestors p) ++ dirs s)
                          (answers s) (S (asked s)))
    end.

(** [df.to_csv(path, mode='a', header=header, index=False)]: a refusal
    comes before the file is opened ([Refuses 0]), or after it was opened
    and some of the lines were appended. *)
Definition to_csv (df : DataFrame) (path : string) (header : bool) : IO unit :=
  fun s =>
    let put := fun ls =>
      mkSys (with_fs (world s) (fs_append (fs (world s)) path ls))
        (dirs s) (answers s) (S (asked s)) in
    match answers s (asked s) with
    | Does => Done tt (put (csv_lines df header))
    | Refuses O =>
        Failed OSError (mkSys (world s) (dirs s) (answers s) (S (asked s)))
    | Refuses (S done) =>
        Failed OSError (put (firstn done (csv_lines df header)))
    end.

Fixpoint write_chunks (env : Env) (full_path : string)
    (total_records chunk_size : Z) (offsets : list Z) (first_chunk : bool)
    : IO unit :=
  match offsets with
  | [] => fun s => Done tt s
  | i :: rest =>
      and_then
        (lift (generate_fraud_data_chunk env
                 (Z.min chunk_size (total_records - i))))
        (fun chunk_df =>
           and_then (to_csv chunk_df full_path first_chunk)
             (fun _ =>
                write_chunks env full_path total_records chunk_size rest
                  false))
  end.

(** [stream_to_csv], from line 138 on. *)
Definition stream_to_csv (env : Env) (filename output_dir : string)
    (total_records chunk_size : Z) : IO unit :=
  and_then (mkdir (parse_path output_dir))
    (fun _ =>
       let full_path := path_join output_dir filename in
       match py_range 0 total_records chunk_size with
       | None => fun s => Failed ValueError s
       | Some offsets =>
           write_chunks env full_path total_records chunk_size offsets true
       end).

(** What [parser.parse_args()] returns: each option as given, or absent. *)
Record Args := mkArgs {
  arg_filename : option string;
  arg_output_dir : option string;
  arg_total_records : option Z;
  arg_chunk_size : option Z
}.

Definition or_default {A} (o : option A) (default : A) : A :=
  match o with
  | Some a => a
  | None => default
  end.

(** [main()], from the parsed options on. *)
Definition main (env : Env) (args : Args) : IO unit :=
  stream_to_csv env
    (or_default (arg_filename args) "fraud_data.csv")
    (or_default (arg_output_dir args) "output")
    (or_default (arg_total_records args) 500000)
    (or_default (arg_chunk_size args) 50000).

(** The call under [if __name__ == "__main__"]. *)
Definition script (env : Env) : IO unit :=
  stream_to_csv env "fraud_data.csv" "Data_Simulation" 500000 50000.

(** From [s] on the system refuses nothing. *)
Definition quiet (s : Sys) : Prop :=
  forall n : nat, (asked s <= n)%nat -> answers s n = Does.

Definition state_after {A} (r : outcome A) : Sys :=
  match r with
  | Done _ s => s
  | Failed _ s => s
  end.

(** The outcome without the system: what the run did to the world. *)
Definition forget {A} (r : outcome A) : result A :=
  match r with
  | Done a s => Ok a (world s)
  | Failed e s => Raise e (world s)
  end.

(** A system that does all it is asked. *)
Definition willing (w : World) : Sys := mkSys w [] (fun _ => Does) 0.

End OS.

(** ** A total Hoare triple for code that leaves the files alone *)

Definition tspec {A} (m : M A) (P : A -> Prop) : Prop :=
  forall w, exists a w', m w = Ok a w' /\ P a /\ fs w' = fs w.

Lemma tspec_ret {A} (a : A) (P : A -> Prop) : P a -> tspec (ret a) P.
Proof. intros Ha w. exists a, w. auto. Qed.

Lemma tspec_bind {A B} (m : M A) (f : A -> M B) (P : A -> Prop) (Q : B -> Prop) :
  tspec m P -> (forall a, P a -> tspec (f a) Q) -> tspec (bind m f) Q.
Proof.
  intros Hm Hf w. destruct (Hm w) as (a & w1 & E1 & Pa & F1).
  destruct (Hf a Pa w1) as (b & w2 & E2 & Qb & F2).
  exists b, w2. unfold bind. rewrite E1. repeat split; auto. congruence.
Qed.

Lemma tspec_weaken {A} (m : M A) (P Q : A -> Prop) :
  tspec m P -> (forall a, P a -> Q a) -> tspec m Q.
Proof.
  intros Hm HPQ w. destruct (Hm w) as (a & w' & E & Pa & F).
  exists a, w'. auto.
Qed.

Lemma tspec_next_mt : tspec next_mt (fun _ => True).
Proof. intros w. eexists _, _. split; [reflexivity | auto]. Qed.

Lemma tspec_next_fk : tspec next_fk (fun _ => True).
Proof. intros w. eexists _, _. split; [reflexivity | auto]. Qed.

Lemma two53_pos : 0 < two53.
Proof. reflexivity. Qed.

Lemma tspec_random_random : tspec random_random (fun k => 0 <= k < two53).
Proof.
  eapply tspec_bind; [apply tspec_next_mt | intros d _].
  apply tspec_ret. apply Z.mod_pos_bound, two53_pos.
Qed.

Lemma tspec_randint (a b : Z) :
  a <= b -> tspec (randint a b) (fun x => a <= x <= b).
Proof.
  intros Hab. unfold randint.
  destruct (b <? a) eqn:E; [apply Z.ltb_lt in E; lia |].
  eapply tspec_bind; [apply tspec_next_mt | intros d _].
  apply tspec_ret.
  pose proof (Z.mod_pos_bound d (b - a + 1)). lia.
Qed.

Lemma nth_head_default_In {A} (n : nat) (x : A) (l : list A) :
  In (nth n (x :: l) x) (x :: l).
Proof.
  destruct (nth_in_or_default n (x :: l) x) as [H | H]; [exact H |].
  rewrite H. left. reflexivity.
Qed.

Lemma tspec_choice {A} (l : list A) :
  l <> [] -> tspec (choice l) (fun x => In x l).
Proof.
  destruct l as [| x l]; [congruence | intros _].
  unfold choice.
  eapply tspec_bind; [apply tspec_next_mt | intros d _].
  apply tspec_ret. apply nth_head_default_In.
Qed.

Lemma tspec_choices {A} (population : list A) (ws : list Z) :
  population <> [] -> tspec (choices population ws) (fun x => In x population).
Proof.
  destruct population as [| x l]; [congruence | intros _].
  unfold choices.
  eapply tspec_bind; [apply tspec_random_random | intros k _].
  apply tspec_ret. apply nth_head_default_In.
Qed.

Lemma tspec_uniform_round2 (a b : Z) :
  tspec (uniform_round2 a b)
        (fun x => 100 * Z.min a b <= x <= 100 * Z.max a b).
Proof.
  unfold uniform_round2.
  eapply tspec_bind; [apply tspec_next_mt | intros d _].
  apply tspec_ret.
  pose proof (Z.mod_pos_bound d (100 * Z.max a b - 100 * Z.min a b + 1)).
  lia.
Qed.

Lemma tspec_replicateM {A} (n : nat) (m : M A) (P : A -> Prop) :
  tspec m P ->
  tspec (replicateM n m) (fun l => List.length l = n /\ Forall P l).
Proof.
  intros Hm. induction n as [| n IH]; simpl.
  - apply tspec_ret. split; [reflexivity | constructor].
  - eapply tspec_bind; [exact Hm | intros x Px].
    eapply tspec_bind; [exact IH | intros xs [Hlen Hall]].
    apply tspec_ret. split; [simpl; congruence | constructor; assumption].
Qed.

Lemma tspec_fk_call (g : Z -> string) :
  tspec (d <- next_fk ;; ret (g d)) (fun _ => True).
Proof.
  eapply tspec_bind; [apply tspec_next_fk | intros d _].
  apply tspec_ret. exact I.
Qed.

Lemma tspec_clock (env : Env) : tspec (clock env) (fun _ => True).
Proof. intros w. eexists _, _. split; [reflexivity | auto]. Qed.

Lemma tspec_date_time_between (env : Env) :
  tspec (date_time_between env) (fun _ => True).
Proof.
  unfold date_time_between.
  eapply tspec_bind; [apply tspec_clock | intros t _].
  eapply tspec_bind; [apply tspec_next_fk | intros d _].
  apply tspec_ret. exact I.
Qed.

Lemma tspec_replace_hour (t h : Z) :
  0 <= h <= 23 ->
  tspec (replace_hour t h) (fun t' => t' mod 86400 / 3600 = h).
Proof.
  intros Hh. unfold replace_hour.
  replace ((h <? 0) || (23 <? h)) with false.
  - apply tspec_ret.
    pose proof (Z.div_mod t 86400 ltac:(lia)) as Ht.
    pose proof (Z.mod_pos_bound t 86400 ltac:(lia)) as Hm.
    pose proof (Z.div_mod (t mod 86400) 3600 ltac:(lia)) as Hs.
    pose proof (Z.mod_pos_bound (t mod 86400) 3600 ltac:(lia)) as Hr.
    set (m := t mod 86400) in *. set (d := t / 86400) in *.
    set (q := m / 3600) in *. set (r := m mod 3600) in *.
    assert (E : (t - q * 3600 + h * 3600) mod 86400 = 3600 * h + r).
    { symmetry. apply Z.mod_unique with (q := d); lia. }
    rewrite E. symmetry. apply Z.div_unique with (r := r); lia.
  - symmetry. apply orb_false_iff. split; apply Z.ltb_ge; lia.
Qed.

(** Every range of [amount_ranges], the default included. *)
Lemma amount_range_bounds (category : string) (min_amt max_amt : Z) :
  dict_get amount_ranges category (10, 200) = (min_amt, max_amt) ->
  0 < min_amt <= max_amt /\ min_amt <= 300 /\ max_amt <= 1000.
Proof.
  unfold amount_ranges. simpl.
  repeat (match goal with
          | |- context [if ?c then _ else _] => destruct c
          end);
    intros H; injection H as <- <-; lia.
Qed.

(** ** The loop body *)

Lemma loop_body_tspec (env : Env) (users : list string) :
  users <> [] -> tspec (loop_body env users) (body_post env users).
Proof.
  intros Hne. unfold loop_body.
  eapply tspec_bind; [apply tspec_choice; exact Hne | intros uid Huid].
  eapply tspec_bind; [apply tspec_choice; discriminate | intros [mname mcat] _].
  cbv beta iota.
  eapply tspec_bind; [apply tspec_choice; discriminate | intros dev _].
  eapply tspec_bind; [apply tspec_random_random | intros u _].
  eapply tspec_bind with (P := fun h => 0 <= h <= 23).
  { destruct (unit_ltb u lit_0_7);
      (eapply tspec_weaken; [apply tspec_randint; lia | cbv beta; intros; lia]). }
  intros h Hh.
  eapply tspec_bind; [apply tspec_date_time_between | intros t _].
  eapply tspec_bind; [apply tspec_replace_hour; exact Hh | intros tt' Htt'].
  destruct (dict_get amount_ranges mcat (10, 200)) as [lo hi] eqn:Hrange.
  destruct (amount_range_bounds _ _ _ Hrange) as (Hlo & Hlo300 & Hhi).
  eapply tspec_bind; [apply tspec_uniform_round2 | intros a0 Ha0].
  cbv beta in Hh, Htt', Ha0. cbv zeta.
  eapply tspec_bind
    with (P := fun a => 100 * lo <= a <= 100 * hi /\ a <= a0).
  { destruct (a0 >? 30000) eqn:Ebig.
    - apply Z.gtb_lt in Ebig.
      eapply tspec_bind; [apply tspec_random_random | intros g _].
      destruct (unit_ltb g lit_0_7).
      + eapply tspec_weaken; [apply tspec_uniform_round2 |].
        cbv beta. intros a Ha. lia.
      + apply tspec_ret. lia.
    - apply tspec_ret. lia. }
  intros a [Ha Hle]. cbv beta in Ha, Hle.
  eapply tspec_bind; [apply tspec_choices; discriminate | intros pm _].
  eapply tspec_bind; [apply tspec_choice; discriminate | intros country _].
  eapply tspec_bind; [apply tspec_fk_call | intros c _].
  eapply tspec_bind; [apply tspec_fk_call | intros s _].
  eapply tspec_bind; [apply tspec_random_random | intros p _].
  eapply tspec_bind with (P := fun _ => True).
  { destruct (unit_ltb p lit_0_05); apply tspec_fk_call. }
  intros ip _.
  eapply tspec_bind; [apply tspec_choices; discriminate | intros ttype _].
  eapply tspec_bind; [apply tspec_choices; discriminate | intros status _].
  eapply tspec_bind; [apply tspec_randint; lia | intros nz Hnz].
  cbv beta in Hnz.
  set (fscore := fraud_rules a h mcat pm status
                   (startswith ip ["10."; "192."; "172."]) + nz).
  eapply tspec_bind
    with (P := fun fd : bool * option Z =>
                 match snd fd with
                 | Some q => 70 < clamp fscore /\ 0 <= q < two53 /\
                             fst fd = unit_ltb q lit_0_3
                 | None => clamp fscore <= 70 /\ fst fd = false
                 end).
  { destruct (clamp fscore >? 70) eqn:Erisk.
    - apply Z.gtb_lt in Erisk.
      eapply tspec_bind; [apply tspec_random_random | intros q Hq].
      apply tspec_ret. simpl. auto.
    - apply tspec_ret. simpl. split; [| reflexivity].
      rewrite Z.gtb_ltb in Erisk. apply Z.ltb_ge in Erisk. exact Erisk. }
  intros [fraud fd] Hfd. cbv beta iota.
  eapply tspec_bind; [apply tspec_fk_call | intros tid _].
  apply tspec_ret. unfold body_post. cbn [row user_id hour transaction_amount
    transaction_timestamp merchant_category first_amount is_private_ip ip_address noise fraud_score
    payment_method transaction_status risk_score fraud_draw is_fraud device_id].
  rewrite Hrange.
  repeat split; try assumption; try reflexivity; try lia.
Qed.

Lemma loop_body_no_users (env : Env) (w : World) :
  loop_body env [] w = Raise IndexError w.
Proof. reflexivity. Qed.

(** ** generate_fraud_data_chunk, by the size asked for *)

Lemma generate_trace_nonpositive (env : Env) (n : Z) (w : World) :
  n <= 0 -> generate_trace env n w = Ok ([], []) w.
Proof.
  intros Hn. unfold generate_trace, make_users, range_len.
  assert (E8 : Z.to_nat (n / 8) = 0%nat).
  { pose proof (Z.div_le_upper_bound n 8 0). lia. }
  assert (E : Z.to_nat n = 0%nat) by lia.
  rewrite E8, E. reflexivity.
Qed.

Lemma generate_trace_small (env : Env) (n : Z) (w : World) :
  1 <= n <= 7 -> generate_trace env n w = Raise IndexError w.
Proof.
  intros Hn. unfold generate_trace, make_users, range_len.
  rewrite (Z.div_small n 8) by lia.
  destruct (Z.to_nat n) as [| k] eqn:E; [lia |].
  reflexivity.
Qed.

Lemma generate_trace_ok (env : Env) (n : Z) (w : World) :
  8 <= n ->
  exists users data w',
    generate_trace env n w = Ok (users, data) w' /\
    users <> [] /\
    List.length users = Z.to_nat (n / 8) /\
    List.length data = Z.to_nat n /\
    Forall (body_post env users) data /\
    fs w' = fs w.
Proof.
  intros Hn.
  assert (Hspec : tspec (generate_trace env n)
            (fun ud => fst ud <> [] /\
                       List.length (fst ud) = Z.to_nat (n / 8) /\
                       List.length (snd ud) = Z.to_nat n /\
                       Forall (body_post env (fst ud)) (snd ud))).
  { unfold generate_trace, make_users, range_len.
    eapply tspec_bind.
    - apply tspec_replicateM with (P := fun _ => True). apply tspec_fk_call.
    - intros users [Hlen _]. cbv beta in Hlen.
      assert (Hne : users <> []).
      { intros ->. simpl in Hlen.
        pose proof (Z.div_le_lower_bound n 8 1). lia. }
      eapply tspec_bind.
      + apply tspec_replicateM. apply loop_body_tspec. exact Hne.
      + intros data [Hd Hall]. apply tspec_ret. simpl. auto. }
  destruct (Hspec w) as ([users data] & w' & E & (Hne & Hu & Hd & Hall) & F).
  exists users, data, w'. simpl in *. auto 10.
Qed.

Lemma generate_trace_inv (env : Env) (n : Z) (w w' : World)
    (users : list string) (data : list Locals) :
  generate_trace env n w = Ok (users, data) w' ->
  List.length users = Z.to_nat (n / 8) /\
  List.length data = Z.to_nat n /\
  Forall (body_post env users) data /\
  fs w' = fs w.
Proof.
  intros H.
  destruct (Z_le_gt_dec n 0) as [Hle | Hgt].
  - rewrite generate_trace_nonpositive in H by exact Hle.
    injection H as <- <- <-.
    assert (Z.to_nat (n / 8) = 0%nat).
    { pose proof (Z.div_le_upper_bound n 8 0). lia. }
    assert (Z.to_nat n = 0%nat) by lia.
    simpl. auto.
  - destruct (Z_le_gt_dec 8 n) as [H8 | Hsmall].
    + destruct (generate_trace_ok env n w H8)
        as (us & ds & w1 & E & _ & Hu & Hd & Hall & F).
      rewrite E in H. injection H as <- <- <-. auto.
    + rewrite generate_trace_small in H by lia. discriminate.
Qed.

Lemma chunk_of_trace (env : Env) (n : Z) (w : World) :
  generate_fraud_data_chunk env n w =
  match generate_trace env n w with
  | Ok (_, data) w' => Ok (pd_DataFrame (map row data)) w'
  | Raise e w' => Raise e w'
  end.
Proof.
  unfold generate_fraud_data_chunk, bind.
  destruct (generate_trace env n w) as [[users data] w' | e w']; reflexivity.
Qed.

Lemma chunk_nonpositive (env : Env) (n : Z) (w : World) :
  n <= 0 -> generate_fraud_data_chunk env n w = Ok (pd_DataFrame []) w.
Proof.
  intros Hn. rewrite chunk_of_trace, generate_trace_nonpositive by exact Hn.
  reflexivity.
Qed.

Lemma chunk_small (env : Env) (n : Z) (w : World) :
  1 <= n <= 7 -> generate_fraud_data_chunk env n w = Raise IndexError w.
Proof.
  intros Hn. rewrite chunk_of_trace, generate_trace_small by exact Hn.
  reflexivity.
Qed.

Lemma chunk_ok (env : Env) (n : Z) (w : World) :
  8 <= n ->
  exists df w',
    generate_fraud_data_chunk env n w = Ok df w' /\
    List.length (rows df) = Z.to_nat n /\
    columns df = COLUMNS /\
    fs w' = fs w.
Proof.
  intros Hn.
  destruct (generate_trace_ok env n w Hn)
    as (users & data & w' & E & _ & _ & Hd & _ & F).
  exists (pd_DataFrame (map row data)), w'.
  rewrite chunk_of_trace, E. simpl. rewrite length_map.
  repeat split; auto.
  destruct data; [simpl in Hd; lia | reflexivity].
Qed.

Lemma chunk_inv (env : Env) (n : Z) (w w' : World) (df : DataFrame) :
  generate_fraud_data_chunk env n w = Ok df w' ->
  exists users data,
    generate_trace env n w = Ok (users, data) w' /\
    df = pd_DataFrame (map row data).
Proof.
  rewrite chunk_of_trace.
  destruct (generate_trace env n w) as [[users data] w1 | e w1];
    [| discriminate].
  intros H. injection H as <- <-. eauto.
Qed.

(** ** Prefixes that end at the first dot *)

Lemma prefix_leading_group (g s : string) :
  dot_free g = true ->
  String.prefix (g ++ ".") s = true <-> leading_group s = (g ++ ".")%string.
Proof.
  revert s. induction g as [| a g IH]; intros s Hg.
  - destruct s as [| c s]; cbn [String.prefix leading_group append];
      [split; discriminate |].
    destruct (Ascii.eqb_spec c "."%char) as [-> | Hc].
    + destruct (ascii_dec "." ".") as [_ | N]; [| congruence].
      destruct s; split; reflexivity.
    + destruct (ascii_dec "." c) as [E | _]; [congruence |].
      split; [discriminate | intros H; injection H; congruence].
  - cbn [dot_free] in Hg. apply andb_true_iff in Hg. destruct Hg as [Ha Hg].
    apply negb_true_iff, Ascii.eqb_neq in Ha.
    destruct s as [| c s]; cbn [String.prefix leading_group append];
      [split; discriminate |].
    destruct (ascii_dec a c) as [<- | Hac].
    + destruct (Ascii.eqb_spec a "."%char) as [E | _]; [congruence |].
      rewrite (IH s Hg). split; [intros -> | intros H; injection H]; auto.
    + split; [discriminate |].
      destruct (Ascii.eqb_spec c "."%char) as [-> | _];
        intros H; injection H; congruence.
Qed.

Lemma startswith_leading_group (s : string) :
  startswith s ["10."; "192."; "172."] = true <->
  In (leading_group s) ["10."; "192."; "172."].
Proof.
  unfold startswith. cbn [existsb In].
  rewrite !orb_true_iff.
  rewrite (prefix_leading_group "10" s eq_refl).
  rewrite (prefix_leading_group "192" s eq_refl).
  rewrite (prefix_leading_group "172" s eq_refl).
  cbn [append]. split.
  - intros [H | [H | [H | H]]]; [| | | discriminate]; rewrite H; auto.
  - intros [H | [H | [H | []]]]; rewrite <- H; auto.
Qed.

(** ** stream_to_csv *)

Lemma contents_fs_append (f : string -> option (list Line)) (path : string)
    (ls : list Line) :
  contents (fs_append f path ls) path = contents f path ++ ls.
Proof.
  unfold contents, fs_append. rewrite String.eqb_refl. reflexivity.
Qed.

Lemma fs_append_exists (f : string -> option (list Line)) (path : string)
    (ls : list Line) :
  fs_append f path ls path <> None.
Proof. unfold fs_append. rewrite String.eqb_refl. discriminate. Qed.

(** The loop over the offsets when every size asked for is at least 8:
    it ends, and the file grows by the header (for a first chunk) and the
    rows of the batches, in order. *)
Lemma write_chunks_ok (env : Env) (path : string) (total chunk : Z)
    (offsets : list Z) :
  Forall (fun i => 8 <= Z.min chunk (total - i)) offsets ->
  forall (first : bool) (w : World),
  exists (batches : list (list Transaction)) (w' : World),
    write_chunks env path total chunk offsets first w = Ok tt w' /\
    map (fun b => Z.of_nat (List.length b)) batches
    = map (fun i => Z.min chunk (total - i)) offsets /\
    contents (fs w') path
    = contents (fs w) path
      ++ (if first then header_of_run offsets else [])
      ++ map Data (List.concat batches).
Proof.
  induction 1 as [| i rest Hi Hrest IH]; intros first w.
  - exists [], w. simpl. destruct first; rewrite app_nil_r; auto.
  - destruct (chunk_ok env _ w Hi) as (df & w1 & E1 & Hlen & Hcols & F1).
    destruct (IH false
                (mkWorld (mt w1) (mt_pos w1) (fk w1) (fk_pos w1)
                   (fs_append (fs w1) path (csv_lines df first))))
      as (batches & w' & E2 & Hsizes & Hfile).
    exists (rows df :: batches), w'. split; [| split].
    + cbn [write_chunks]. unfold bind at 1. rewrite E1.
      unfold bind at 1. unfold to_csv at 1. exact E2.
    + cbn [map]. rewrite Hsizes, Hlen. f_equal. lia.
    + rewrite Hfile. cbn [fs]. rewrite contents_fs_append, F1.
      unfold csv_lines. rewrite Hcols. cbn [List.concat header_of_run].
      rewrite map_app, <- !app_assoc. destruct first; reflexivity.
Qed.

Lemma stream_ok (env : Env) (filename output_dir : string)
    (total chunk : Z) (w : World) :
  chunk <> 0 ->
  Forall (fun n => 8 <= n) (batch_sizes total chunk) ->
  exists (batches : list (list Transaction)) (w' : World),
    stream_to_csv env filename output_dir total chunk w = Ok tt w' /\
    map (fun b => Z.of_nat (List.length b)) batches = batch_sizes total chunk /\
    contents (fs w') (path_join output_dir filename)
    = contents (fs w) (path_join output_dir filename)
      ++ header_of_run (batch_sizes total chunk)
      ++ map Data (List.concat batches).
Proof.
  intros Hchunk Hsizes. unfold stream_to_csv, batch_sizes in *.
  destruct (py_range 0 total chunk) as [offsets |] eqn:E.
  - rewrite Forall_map in Hsizes.
    destruct (write_chunks_ok env (path_join output_dir filename) total chunk
                offsets Hsizes true w) as (batches & w' & E' & Hs & Hf).
    exists batches, w'. repeat split; auto.
    rewrite Hf. destruct offsets; reflexivity.
  - unfold py_range in E. destruct (chunk =? 0) eqn:E0; [| discriminate].
    apply Z.eqb_eq in E0. contradiction.
Qed.

(** The offsets of the writer for a positive chunk size: the multiples of
    the chunk size below the total, in order. *)
Lemma py_range_positive (total step : Z) :
  0 < step ->
  exists len : nat,
    py_range 0 total step
    = Some (map (fun k => 0 + step * Z.of_nat k) (seq 0 len)) /\
    forall k : nat, (k < len)%nat <-> step * Z.of_nat k < total.
Proof.
  intros Hstep. unfold py_range.
  destruct (step =? 0) eqn:E0; [apply Z.eqb_eq in E0; lia |].
  destruct (0 <? step) eqn:Epos; [| apply Z.ltb_ge in Epos; lia].
  exists (Z.to_nat ((total - 0 + step - 1) / step)). split; [reflexivity |].
  intros k. set (q := (total - 0 + step - 1) / step).
  assert (Hq : step * q <= total - 0 + step - 1 < step * (q + 1)).
  { pose proof (Z.mul_div_le (total - 0 + step - 1) step Hstep).
    pose proof (Z.mul_succ_div_gt (total - 0 + step - 1) step Hstep).
    fold q in H, H0. lia. }
  split; intros Hk.
  - assert (Z.of_nat k < q) by lia. nia.
  - assert (Z.of_nat k < q) by nia. lia.
Qed.

(** A run that writes at least one batch leaves the destination longer
    than it found it: nothing truncates the file. *)
Lemma stream_grows_file (env : Env) (filename output_dir : string)
    (total chunk : Z) (w : World) :
  chunk <> 0 ->
  Forall (fun n => 8 <= n) (batch_sizes total chunk) ->
  batch_sizes total chunk <> [] ->
  (List.length (contents (fs w) (path_join output_dir filename))
   < List.length
       (contents
          (fs (world_after (stream_to_csv env filename output_dir total chunk w)))
          (path_join output_dir filename)))%nat.
Proof.
  intros Hc Hs Hne.
  destruct (stream_ok env filename output_dir total chunk w Hc Hs)
    as (batches & w' & E & _ & Hf).
  rewrite E. cbn [world_after]. rewrite Hf, !length_app.
  destruct (batch_sizes total chunk); [congruence |].
  cbn [header_of_run List.length]. lia.
Qed.

(** 120,000 records in chunks of 50,000: three batches of 50,000, 50,000
    and 20,000 rows behind one header. *)
Lemma stream_120000_by_50000 (env : Env) (filename output_dir : string)
    (w : World) :
  fs w (path_join output_dir filename) = None ->
  exists (b1 b2 b3 : list Transaction) (w' : World),
    stream_to_csv env filename output_dir 120000 50000 w = Ok tt w' /\
    Z.of_nat (List.length b1) = 50000 /\
    Z.of_nat (List.length b2) = 50000 /\
    Z.of_nat (List.length b3) = 20000 /\
    contents (fs w') (path_join output_dir filename)
    = Header COLUMNS :: map Data b1 ++ map Data b2 ++ map Data b3.
Proof.
  intros Hfresh.
  assert (Hsizes : batch_sizes 120000 50000 = [50000; 50000; 20000])
    by reflexivity.
  destruct (stream_ok env filename output_dir 120000 50000 w)
    as (batches & w' & E & Hb & Hf).
  - discriminate.
  - rewrite Hsizes. repeat constructor; lia.
  - rewrite Hsizes in Hb, Hf.
    destruct batches as [| b1 [| b2 [| b3 [| b4 rest]]]];
      cbn [map] in Hb; try discriminate Hb.
    injection Hb as H1 H2 H3.
    exists b1, b2, b3, w'. repeat split; auto.
    rewrite Hf. unfold contents at 1. rewrite Hfresh.
    cbn [header_of_run List.concat app]. rewrite app_nil_r, !map_app.
    reflexivity.
Qed.

(** A chunk size that covers a total of at least 8: one batch with all the
    rows, behind one header. *)
Lemma stream_single_batch (env : Env) (filename output_dir : string)
    (total chunk : Z) (w : World) :
  8 <= total <= chunk ->
  fs w (path_join output_dir filename) = None ->
  batch_sizes total chunk = [total] /\
  exists (b : list Transaction) (w' : World),
    stream_to_csv env filename output_dir total chunk w = Ok tt w' /\
    Z.of_nat (List.length b) = total /\
    contents (fs w') (path_join output_dir filename)
    = Header COLUMNS :: map Data b.
Proof.
  intros Ht Hfresh.
  assert (Hsizes : batch_sizes total chunk = [total]).
  { unfold batch_sizes, py_range.
    destruct (chunk =? 0) eqn:E0; [apply Z.eqb_eq in E0; lia |].
    destruct (0 <? chunk) eqn:Epos; [| apply Z.ltb_ge in Epos; lia].
    replace ((total - 0 + chunk - 1) / chunk) with 1.
    - change (Z.to_nat 1) with 1%nat. cbn [seq map Z.of_nat].
      f_equal. lia.
    - apply Z.div_unique with (r := total - 1); lia. }
  split; [exact Hsizes |].
  destruct (stream_ok env filename output_dir total chunk w)
    as (batches & w' & E & Hb & Hf).
  - lia.
  - rewrite Hsizes. repeat constructor; lia.
  - rewrite Hsizes in Hb, Hf.
    destruct batches as [| b [| b2 rest]];
      cbn [map] in Hb; try discriminate Hb.
    injection Hb as H1.
    exists b, w'. repeat split; auto.
    rewrite Hf. unfold contents at 1. rewrite Hfresh.
    cbn [header_of_run List.concat app]. rewrite app_nil_r. reflexivity.
Qed.

(** ** The rules of the risk score *)

Lemma clamp_range (fraud_score : Z) : 0 <= clamp fraud_score <= 100.
Proof. unfold clamp. lia. Qed.

Lemma fraud_rules_sum (amount hour : Z) (category method status : string)
    (private : bool) :
  fraud_rules amount hour category method status private
  = (if amount >? 50000 then 30 else 0)
    + (if amount >? 100000 then 20 else 0)
    + (if (hour <? 6) || (hour >? 23) then 15 else 0)
    + (if String.eqb category "online" then 10 else 0)
    + (if String.eqb method "digital_wallet" then 5 else 0)
    + (if String.eqb status "failed" then 25 else 0)
    + (if private then 20 else 0).
Proof.
  unfold fraud_rules. cbv zeta.
  destruct (amount >? 50000), (amount >? 100000),
    ((hour <? 6) || (hour >? 23)), (String.eqb category "online"),
    (String.eqb method "digital_wallet"), (String.eqb status "failed"),
    private; reflexivity.
Qed.

(** The gate [random.random() < 0.3], on the numerator of the draw: the
    float literal and the exact three tenths cut at the same place. *)
Lemma unit_ltb_0_3 (q : Z) :
  unit_ltb q lit_0_3 = true <-> 10 * q < 3 * two53.
Proof.
  unfold unit_ltb, lit_0_3, two53. cbn [fst snd]. rewrite Z.ltb_lt.
  change (2 ^ 54) with 18014398509481984.
  change (2 ^ 53) with 9007199254740992. lia.
Qed.

(** ** The claims on the rows *)

(** C5. The risk score of every row of a generated batch is between 0 and
    100, and the clamp that produces it lands there for every score it is
    given, so for every value of the noise term. *)
Theorem risk_score_in_range :
  forall (env : Env) (n : Z) (w w' : World) (df : DataFrame),
    generate_fraud_data_chunk env n w = Ok df w' ->
    Forall (fun r => 0 <= risk_score r <= 100) (rows df) /\
    forall fraud_score : Z, 0 <= clamp fraud_score <= 100.
Proof.
  intros env n w w' df H. split; [| exact clamp_range].
  destruct (chunk_inv _ _ _ _ _ H) as (users & data & E & ->).
  destruct (generate_trace_inv _ _ _ _ _ _ E) as (_ & _ & Hall & _).
  cbn [rows pd_DataFrame]. rewrite Forall_map.
  eapply Forall_impl; [| exact Hall].
  intros l (_ & _ & _ & _ & _ & _ & _ & _ & Hrisk & _).
  rewrite Hrisk. apply clamp_range.
Qed.

Lemma risk_score_in_range_witness :
  exists (df : DataFrame) (w' : World),
    generate_fraud_data_chunk env0 8 risky_world = Ok df w' /\
    Forall (fun r => 0 <= risk_score r <= 100) (rows df).
Proof.
  eexists _, _. split.
  - vm_compute. reflexivity.
  - eapply (risk_score_in_range env0 8 risky_world). vm_compute. reflexivity.
Defined.

(** C6. In every pass of the loop the fraud flag is set only when the risk
    score is above 70 and the draw of the gate, made for that pass alone,
    is below 0.3; and a pass can end with a risk score above 70 and the flag
    not set. *)
Theorem fraud_flag_needs_high_risk_and_gate :
  (forall (env : Env) (n : Z) (w w' : World) (users : list string)
          (data : list Locals),
     generate_trace env n w = Ok (users, data) w' ->
     Forall (fun l =>
               is_fraud (row l) = true ->
               70 < risk_score (row l) /\
               exists q, fraud_draw l = Some q /\ 0 <= q < two53 /\
                         unit_ltb q lit_0_3 = true /\
                         10 * q < 3 * two53) data) /\
  (exists (env : Env) (n : Z) (w w' : World) (users : list string)
          (data : list Locals) (l : Locals),
     generate_trace env n w = Ok (users, data) w' /\ In l data /\
     70 < risk_score (row l) /\ is_fraud (row l) = false).
Proof.
  split.
  - intros env n w w' users data H.
    destruct (generate_trace_inv _ _ _ _ _ _ H) as (_ & _ & Hall & _).
    eapply Forall_impl; [| exact Hall].
    intros l (_ & _ & _ & _ & _ & _ & _ & _ & _ & Hgate & _) Hflag.
    destruct (fraud_draw l) as [q |].
    + destruct Hgate as (Hrisk & Hq & Hf). split; [exact Hrisk |].
      assert (Hlt : unit_ltb q lit_0_3 = true) by congruence.
      exists q. repeat split; try apply Hq; try exact Hlt.
      apply unit_ltb_0_3. exact Hlt.
    + destruct Hgate as (_ & Hf). congruence.
  - exists env0, 8, risky_world.
    eexists _, _, _, _. split; [vm_compute; reflexivity |].
    split; [left; reflexivity |]. split; reflexivity.
Qed.

Lemma fraud_flag_needs_high_risk_and_gate_witness :
  exists (users : list string) (data : list Locals) (w' : World),
    generate_trace env0 8 risky_world = Ok (users, data) w' /\
    Forall (fun l =>
              is_fraud (row l) = true ->
              70 < risk_score (row l) /\
              exists q, fraud_draw l = Some q /\ 0 <= q < two53 /\
                        unit_ltb q lit_0_3 = true /\
                        10 * q < 3 * two53) data.
Proof.
  eexists _, _, _. split.
  - vm_compute. reflexivity.
  - eapply (proj1 fraud_flag_needs_high_risk_and_gate env0 8 risky_world).
    vm_compute. reflexivity.
Defined.



(** C9. In every pass of the loop the private-address flag is the result
    of [startswith] on the row's address, and it is true exactly when the
    leading group of the address, up to its first dot, is one of "10.",
    "192." and "172.". *)
Theorem private_flag_iff_leading_group :
  forall (env : Env) (n : Z) (w w' : World) (users : list string)
         (data : list Locals),
    generate_trace env n w = Ok (users, data) w' ->
    Forall (fun l =>
              is_private_ip l
              = startswith (ip_address (row l)) ["10."; "192."; "172."] /\
              (is_private_ip l = true <->
               In (leading_group (ip_address (row l)))
                  ["10."; "192."; "172."])) data.
Proof.
  intros env n w w' users data H.
  destruct (generate_trace_inv _ _ _ _ _ _ H) as (_ & _ & Hall & _).
  eapply Forall_impl; [| exact Hall].
  intros l (_ & _ & _ & _ & _ & Hflag & _).
  split; [exact Hflag |]. rewrite Hflag. apply startswith_leading_group.
Qed.

Lemma private_flag_iff_leading_group_witness :
  exists (users : list string) (data : list Locals) (w' : World),
    generate_trace env0 8 risky_world = Ok (users, data) w' /\
    Forall (fun l =>
              is_private_ip l
              = startswith (ip_address (row l)) ["10."; "192."; "172."] /\
              (is_private_ip l = true <->
               In (leading_group (ip_address (row l)))
                  ["10."; "192."; "172."])) data.
Proof.
  eexists _, _, _. split.
  - vm_compute. reflexivity.
  - eapply (private_flag_iff_leading_group env0 8 risky_world).
    vm_compute. reflexivity.
Defined.

(** C10. Every range of the amounts, the default included, ends at 1000
    or below; in every pass of the loop the amount of the row is at most
    1000 and at most the amount first drawn, so the test [amount > 1000]
    is false and the rule behind it adds nothing to the score. *)
Theorem amount_never_above_1000 :
  forall (env : Env) (n : Z) (w w' : World) (users : list string)
         (data : list Locals),
    generate_trace env n w = Ok (users, data) w' ->
    (forall category : string,
       snd (dict_get amount_ranges category (10, 200)) <= 1000) /\
    Forall (fun l =>
              let r := row l in
              transaction_amount r <= 1000 * 100 /\
              transaction_amount r <= first_amount l /\
              (transaction_amount r >? 1000 * 100) = false /\
              fraud_score l
              = (if transaction_amount r >? 500 * 100 then 30 else 0)
                + (if (hour l <? 6) || (hour l >? 23) then 15 else 0)
                + (if String.eqb (merchant_category r) "online"
                   then 10 else 0)
                + (if String.eqb (payment_method r) "digital_wallet"
                   then 5 else 0)
                + (if String.eqb (transaction_status r) "failed"
                   then 25 else 0)
                + (if is_private_ip l then 20 else 0)
                + noise l) data.
Proof.
  intros env n w w' users data H. split.
  - intros category.
    destruct (dict_get amount_ranges category (10, 200)) as [lo hi] eqn:E.
    apply amount_range_bounds in E. cbn [snd]. lia.
  - destruct (generate_trace_inv _ _ _ _ _ _ H) as (_ & _ & Hall & _).
    eapply Forall_impl; [| exact Hall].
    intros l (_ & _ & _ & Hamt & Hfirst & _ & _ & Hscore & _).
    destruct (dict_get amount_ranges (merchant_category (row l)) (10, 200))
      as [lo hi] eqn:E.
    cbv beta iota in Hamt. apply amount_range_bounds in E.
    change (1000 * 100) with 100000. change (500 * 100) with 50000.
    assert (Hle : transaction_amount (row l) <= 100000) by lia.
    assert (Hgt : (transaction_amount (row l) >? 100000) = false).
    { rewrite Z.gtb_ltb. apply Z.ltb_ge. exact Hle. }
    cbv zeta. repeat split; try assumption.
    rewrite Hscore, fraud_rules_sum, Hgt. lia.
Qed.

Lemma amount_never_above_1000_witness :
  exists (users : list string) (data : list Locals) (w' : World),
    generate_trace env0 8 risky_world = Ok (users, data) w' /\
    Forall (fun l => transaction_amount (row l) <= 1000 * 100) data.
Proof.
  eexists _, _, _. split.
  - vm_compute. reflexivity.
  - eapply Forall_impl;
      [| eapply (amount_never_above_1000 env0 8 risky_world);
         vm_compute; reflexivity].
    intros l H. apply H.
Defined.

(** ** The claims on the sizes and on whole runs *)

(** C1. Asked for 1 record, and equally for 7, the synthesizer returns no
    batch: the pool of users is empty, the first [random.choice(users)]
    raises IndexError, and the world is as it was. *)
Theorem generate_chunk_below_eight_raises :
  forall (env : Env) (w : World),
    generate_fraud_data_chunk env 1 w = Raise IndexError w /\
    generate_fraud_data_chunk env 7 w = Raise IndexError w.
Proof.
  intros env w. split; apply chunk_small; lia.
Qed.

(** C2, as the code has it. A count of 0 or below is not refused: the
    synthesizer returns a batch without rows, draws nothing and writes
    nothing.  A count of 8 or more gives a batch of that many rows and
    leaves the files alone. *)
Theorem nonpositive_count_gives_empty_batch :
  forall (env : Env) (n : Z) (w : World),
    n <= 0 \/ 8 <= n ->
    exists (df : DataFrame) (w' : World),
      generate_fraud_data_chunk env n w = Ok df w' /\
      Z.of_nat (List.length (rows df)) = Z.max 0 n /\
      fs w' = fs w /\
      (n <= 0 -> df = pd_DataFrame [] /\ w' = w).
Proof.
  intros env n w [Hn | Hn].
  - exists (pd_DataFrame []), w.
    rewrite chunk_nonpositive by exact Hn. cbn [rows pd_DataFrame List.length].
    repeat split; auto. lia.
  - destruct (chunk_ok env n w Hn) as (df & w' & E & Hlen & _ & F).
    exists df, w'. repeat split; auto; lia.
Qed.

Lemma nonpositive_count_gives_empty_batch_witness :
  (0 <= 0 \/ 8 <= 0) /\
  exists (df : DataFrame) (w' : World),
    generate_fraud_data_chunk env0 0 plain_world = Ok df w' /\
    Z.of_nat (List.length (rows df)) = Z.max 0 0 /\
    fs w' = fs plain_world /\
    (0 <= 0 -> df = pd_DataFrame [] /\ w' = plain_world).
Proof.
  split; [left; lia |].
  apply (nonpositive_count_gives_empty_batch env0 0 plain_world).
  left. lia.
Defined.

(** C2, as stated, fails: a count of 0, and a count of -3, raise nothing. *)
Lemma zero_count_is_not_refused :
  ~ (exists (e : exn) (w' : World),
       generate_fraud_data_chunk env0 0 plain_world = Raise e w') /\
  ~ (exists (e : exn) (w' : World),
       generate_fraud_data_chunk env0 (-3) plain_world = Raise e w').
Proof.
  split; intros (e & w' & H); vm_compute in H; discriminate H.
Qed.

(** C3. For a count of 7 the pool of users has no member, where
    [max(1, 7 // 8)] is 1, and the call raises at its first choice from
    the pool. *)
Theorem user_pool_of_seven_is_empty :
  forall (env : Env) (w : World),
    make_users env 7 w = Ok [] w /\
    Z.max 1 (7 / 8) = 1 /\
    generate_trace env 7 w = Raise IndexError w.
Proof.
  intros env w.
  split; [reflexivity | split; [reflexivity |]].
  apply generate_trace_small. lia.
Qed.

(** From a count of 8 on, the pool of a call has [max(1, n // 8)] members
    and every row of the call has its user from that pool. *)
Lemma user_pool_from_eight (env : Env) (n : Z) (w w' : World)
    (users : list string) (data : list Locals) :
  8 <= n ->
  generate_trace env n w = Ok (users, data) w' ->
  Z.of_nat (List.length users) = Z.max 1 (n / 8) /\
  Forall (fun l => In (user_id (row l)) users) data.
Proof.
  intros Hn H.
  destruct (generate_trace_inv _ _ _ _ _ _ H) as (Hu & _ & Hall & _).
  split.
  - pose proof (Z.div_le_lower_bound n 8 1). lia.
  - eapply Forall_impl; [| exact Hall]. intros l Hl. apply Hl.
Qed.

(** C4. Two runs under the same seeds and the same configuration do not
    leave the same file.  With everything else equal, the second run on the
    destination of the first appends to what is there.  On fresh
    destinations, two processes whose [hash] keys differ write different
    device identifiers, and two clocks write different timestamps. *)
Theorem seeded_runs_differ :
  let path := path_join "out" "fraud_data.csv" in
  let first_run := run8 env0 plain_world in
  file_after (run8 env0 (restart (world_after first_run))) path
  <> file_after first_run path /\
  file_after (run8 (sample_env 2 1793750400) plain_world) path
  <> file_after first_run path /\
  file_after (run8 (sample_env 1 1793750401) plain_world) path
  <> file_after first_run path.
Proof.
  cbv zeta. repeat split; intros H; vm_compute in H; discriminate H.
Qed.

(** C8. For a total of 5 and a chunk size of 10 the writer asks for one
    batch of 5 rows; the synthesizer raises IndexError, and the world is
    as it was: no batch and no header reach the file. *)
Theorem stream_of_five_raises :
  forall (env : Env) (filename output_dir : string) (w : World),
    batch_sizes 5 10 = [5] /\
    stream_to_csv env filename output_dir 5 10 w = Raise IndexError w.
Proof.
  intros env filename output_dir w. split; [reflexivity |].
  unfold stream_to_csv.
  change (py_range 0 5 10) with (Some [0]).
  cbn [write_chunks]. unfold bind at 1.
  rewrite chunk_small by (cbn; lia). reflexivity.
Qed.

(** ** More on the loop body *)

Lemma loop_body_tspec_more (env : Env) (users : list string) :
  users <> [] -> tspec (loop_body env users) (body_more env).
Proof.
  intros Hne. unfold loop_body.
  eapply tspec_bind; [apply tspec_choice; exact Hne | intros uid _].
  eapply tspec_bind;
    [apply tspec_choice; discriminate | intros [mname mcat] Hm].
  cbv beta iota.
  eapply tspec_bind; [apply tspec_choice; discriminate | intros dev Hdev].
  eapply tspec_bind; [apply tspec_random_random | intros u _].
  eapply tspec_bind with (P := fun h => 0 <= h <= 23).
  { destruct (unit_ltb u lit_0_7);
      (eapply tspec_weaken; [apply tspec_randint; lia | cbv beta; intros; lia]). }
  intros h Hh.
  eapply tspec_bind; [apply tspec_date_time_between | intros t _].
  eapply tspec_bind; [apply tspec_replace_hour; exact Hh | intros t' _].
  destruct (dict_get amount_ranges mcat (10, 200)) as [lo hi] eqn:Hrange.
  destruct (amount_range_bounds _ _ _ Hrange) as (Hlo & Hlo300 & Hhi).
  eapply tspec_bind; [apply tspec_uniform_round2 | intros a0 Ha0].
  cbv beta in Hm, Hdev, Hh, Ha0. cbv zeta.
  eapply tspec_bind
    with (P := fun a => a <> a0 -> 30000 < a0 /\ a <= 30000).
  { destruct (a0 >? 30000) eqn:Ebig.
    - apply Z.gtb_lt in Ebig.
      eapply tspec_bind; [apply tspec_random_random | intros g _].
      destruct (unit_ltb g lit_0_7).
      + eapply tspec_weaken; [apply tspec_uniform_round2 |].
        cbv beta. intros a Ha _. lia.
      + apply tspec_ret. intros N. congruence.
    - apply tspec_ret. intros N. congruence. }
  intros a Ha. cbv beta in Ha.
  eapply tspec_bind; [apply tspec_choices; discriminate | intros pm Hpm].
  eapply tspec_bind; [apply tspec_choice; discriminate | intros country Hc].
  eapply tspec_bind; [apply tspec_fk_call | intros c _].
  eapply tspec_bind; [apply tspec_fk_call | intros s _].
  eapply tspec_bind; [apply tspec_random_random | intros p _].
  eapply tspec_bind with (P := fun _ => True).
  { destruct (unit_ltb p lit_0_05); apply tspec_fk_call. }
  intros ip _.
  eapply tspec_bind; [apply tspec_choices; discriminate | intros ttype Hty].
  eapply tspec_bind; [apply tspec_choices; discriminate | intros status Hst].
  eapply tspec_bind; [apply tspec_randint; lia | intros nz _].
  eapply tspec_bind with (P := fun _ => True).
  { match goal with
    | |- tspec (if ?c then _ else _) _ => destruct c
    end.
    - eapply tspec_bind; [apply tspec_random_random | intros q _].
      apply tspec_ret. exact I.
    - apply tspec_ret. exact I. }
  intros [fraud fd] _. cbv beta iota.
  eapply tspec_bind; [apply tspec_fk_call | intros tid _].
  apply tspec_ret. unfold body_more. cbn [row first_amount transaction_amount
    transaction_timestamp merchant_category merchant_id payment_method
    geolocation device_type transaction_type transaction_status].
  rewrite Hrange. cbv beta in Hpm, Hc, Hty, Hst.
  split; [exists mname; split; [exact Hm | reflexivity] |].
  split; [exact Hdev |]. split; [exact Hpm |].
  split; [exact Hty |]. split; [exact Hst |].
  split; [exists c, s, country; split; [exact Hc | reflexivity] |].
  split; [lia |]. exact Ha.
Qed.

(** What holds after every pass for a pool with a member holds for every
    pass of every call that returns. *)
Lemma generate_trace_Forall (env : Env) (P : list string -> Locals -> Prop) :
  (forall users, users <> [] -> tspec (loop_body env users) (P users)) ->
  forall (n : Z) (w w' : World) (users : list string) (data : list Locals),
    generate_trace env n w = Ok (users, data) w' ->
    Forall (P users) data.
Proof.
  intros HP n w w' users data H.
  destruct (Z_le_gt_dec n 0) as [Hle | Hgt].
  - rewrite generate_trace_nonpositive in H by exact Hle.
    injection H as <- <- <-. constructor.
  - destruct (Z_le_gt_dec 8 n) as [H8 | Hsmall].
    + assert (Hspec : tspec (generate_trace env n)
                (fun ud => Forall (P (fst ud)) (snd ud))).
      { unfold generate_trace, make_users, range_len.
        eapply tspec_bind.
        - apply tspec_replicateM with (P := fun _ => True).
          apply tspec_fk_call.
        - intros us [Hlen _]. cbv beta in Hlen.
          assert (Hne : us <> []).
          { intros ->. simpl in Hlen.
            pose proof (Z.div_le_lower_bound n 8 1). lia. }
          eapply tspec_bind.
          + apply tspec_replicateM. apply HP. exact Hne.
          + intros ds [_ Hall]. apply tspec_ret. exact Hall. }
      destruct (Hspec w) as ([us ds] & w1 & E & Hall & _).
      rewrite E in H. injection H as <- <- <-. exact Hall.
    + rewrite generate_trace_small in H by lia. discriminate H.
Qed.

Ltac run_on_risky_world thm :=
  eexists _, _, _; split;
  [ vm_compute; reflexivity
  | eapply (thm env0 8 risky_world); vm_compute; reflexivity ].

(** ** Further properties of the rows *)

(** The category of a catalog entry is a key of [amount_ranges], so the
    default range is not the one used. *)
Lemma catalog_category_has_range (name category : string) (range : Z * Z) :
  In (name, category) MERCHANTS ->
  dict_get amount_ranges category (10, 200) = range ->
  In (category, range) amount_ranges.
Proof.
  unfold MERCHANTS. cbn [In]. intros H E.
  repeat (destruct H as [H | H];
          [injection H as <- <-; cbn in E; subst range; cbn; tauto |]).
  contradiction.
Qed.

Lemma range_above_500_is_financial (category : string) (min_amt max_amt : Z) :
  In (category, (min_amt, max_amt)) amount_ranges ->
  500 < max_amt -> category = "financial".
Proof.
  unfold amount_ranges. cbn [In]. intros H Hmax.
  repeat (destruct H as [H | H];
          [injection H as <- <- <-; try lia; try reflexivity |]).
  contradiction.
Qed.

(** The hour of every pass is an hour of the day, so the test [hour > 23]
    of the risk rules is never true and the rule of 15 points applies
    exactly when the hour is below 6. *)
Theorem hour_is_hour_of_day :
  forall (env : Env) (n : Z) (w w' : World) (users : list string)
         (data : list Locals),
    generate_trace env n w = Ok (users, data) w' ->
    Forall (fun l =>
              0 <= hour l <= 23 /\
              (hour l >? 23) = false /\
              (hour l <? 6) || (hour l >? 23) = (hour l <? 6)) data.
Proof.
  intros env n w w' users data H.
  destruct (generate_trace_inv _ _ _ _ _ _ H) as (_ & _ & Hall & _).
  eapply Forall_impl; [| exact Hall].
  intros l (_ & Hh & _).
  assert (Hgt : (hour l >? 23) = false).
  { rewrite Z.gtb_ltb. apply Z.ltb_ge. lia. }
  rewrite Hgt, orb_false_r. auto.
Qed.

Lemma hour_is_hour_of_day_witness :
  exists (users : list string) (data : list Locals) (w' : World),
    generate_trace env0 8 risky_world = Ok (users, data) w' /\
    Forall (fun l =>
              0 <= hour l <= 23 /\
              (hour l >? 23) = false /\
              (hour l <? 6) || (hour l >? 23) = (hour l <? 6)) data.
Proof. run_on_risky_world hour_is_hour_of_day. Defined.

(** The category of every row is a key of [amount_ranges], and the amount
    is positive and within the range of that category. *)
Theorem amount_within_category_range :
  forall (env : Env) (n : Z) (w w' : World) (users : list string)
         (data : list Locals),
    generate_trace env n w = Ok (users, data) w' ->
    Forall (fun l =>
              exists min_amt max_amt : Z,
                In (merchant_category (row l), (min_amt, max_amt))
                   amount_ranges /\
                100 * min_amt <= transaction_amount (row l) <= 100 * max_amt /\
                0 < transaction_amount (row l)) data.
Proof.
  intros env n w w' users data H.
  destruct (generate_trace_inv _ _ _ _ _ _ H) as (_ & _ & Hall & _).
  pose proof (generate_trace_Forall env (fun _ => body_more env)
                (loop_body_tspec_more env) _ _ _ _ _ H) as Hmore.
  rewrite Forall_forall in *. intros l Hl.
  destruct (Hall l Hl) as (_ & _ & _ & Hamt & _).
  destruct (Hmore l Hl) as ((name & Hcat & _) & _).
  destruct (dict_get amount_ranges (merchant_category (row l)) (10, 200))
    as [lo hi] eqn:E.
  cbv beta iota in Hamt.
  exists lo, hi. split; [exact (catalog_category_has_range _ _ _ Hcat E) |].
  apply amount_range_bounds in E. lia.
Qed.

Lemma amount_within_category_range_witness :
  exists (users : list string) (data : list Locals) (w' : World),
    generate_trace env0 8 risky_world = Ok (users, data) w' /\
    Forall (fun l =>
              exists min_amt max_amt : Z,
                In (merchant_category (row l), (min_amt, max_amt))
                   amount_ranges /\
                100 * min_amt <= transaction_amount (row l) <= 100 * max_amt /\
                0 < transaction_amount (row l)) data.
Proof. run_on_risky_world amount_within_category_range. Defined.

(** An amount above 500 occurs only with the category financial, so the
    rules for an amount above 500 and for an online merchant never both
    apply, and the score before the clamp is between -5 and 105. *)
Theorem amount_above_500_is_financial :
  forall (env : Env) (n : Z) (w w' : World) (users : list string)
         (data : list Locals),
    generate_trace env n w = Ok (users, data) w' ->
    Forall (fun l =>
              (500 * 100 < transaction_amount (row l) ->
               merchant_category (row l) = "financial") /\
              -5 <= fraud_score l <= 105) data.
Proof.
  intros env n w w' users data H.
  destruct (generate_trace_inv _ _ _ _ _ _ H) as (_ & _ & Hall & _).
  pose proof (generate_trace_Forall env (fun _ => body_more env)
                (loop_body_tspec_more env) _ _ _ _ _ H) as Hmore.
  rewrite Forall_forall in *. intros l Hl.
  destruct (Hall l Hl) as (_ & _ & _ & Hamt & _ & _ & Hnoise & Hscore & _).
  destruct (Hmore l Hl) as ((name & Hcat & _) & _).
  destruct (dict_get amount_ranges (merchant_category (row l)) (10, 200))
    as [lo hi] eqn:E.
  cbv beta iota in Hamt.
  pose proof (catalog_category_has_range _ _ _ Hcat E) as Hin.
  assert (Hfin : 500 * 100 < transaction_amount (row l) ->
                 merchant_category (row l) = "financial").
  { intros Hbig. apply (range_above_500_is_financial _ lo hi Hin). lia. }
  split; [exact Hfin |].
  assert (Hgt : (transaction_amount (row l) >? 100000) = false).
  { apply amount_range_bounds in E. rewrite Z.gtb_ltb. apply Z.ltb_ge. lia. }
  rewrite Hscore, fraud_rules_sum, Hgt.
  destruct (transaction_amount (row l) >? 50000) eqn:Ebig,
    ((hour l <? 6) || (hour l >? 23)),
    (String.eqb (merchant_category (row l)) "online") eqn:Eonline,
    (String.eqb (payment_method (row l)) "digital_wallet"),
    (String.eqb (transaction_status (row l)) "failed"),
    (is_private_ip l); try lia;
    apply Z.gtb_lt in Ebig; rewrite (Hfin ltac:(lia)) in Eonline;
    vm_compute in Eonline; discriminate Eonline.
Qed.

Lemma amount_above_500_is_financial_witness :
  exists (users : list string) (data : list Locals) (w' : World),
    generate_trace env0 8 risky_world = Ok (users, data) w' /\
    Forall (fun l =>
              (500 * 100 < transaction_amount (row l) ->
               merchant_category (row l) = "financial") /\
              -5 <= fraud_score l <= 105) data.
Proof. run_on_risky_world amount_above_500_is_financial. Defined.

(** The amount of a row differs from the amount first drawn only when the
    first one was above 300, and then it is at most 300; the first one lies
    in the range of the category as well. *)
Theorem amount_redrawn_only_above_300 :
  forall (env : Env) (n : Z) (w w' : World) (users : list string)
         (data : list Locals),
    generate_trace env n w = Ok (users, data) w' ->
    Forall (fun l =>
              (transaction_amount (row l) <> first_amount l ->
               300 * 100 < first_amount l /\
               transaction_amount (row l) <= 300 * 100) /\
              (first_amount l <= 300 * 100 ->
               transaction_amount (row l) = first_amount l)) data.
Proof.
  intros env n w w' users data H.
  pose proof (generate_trace_Forall env (fun _ => body_more env)
                (loop_body_tspec_more env) _ _ _ _ _ H) as Hmore.
  eapply Forall_impl; [| exact Hmore].
  intros l (_ & _ & _ & _ & _ & _ & _ & Hre).
  split; [exact Hre |].
  intros Hsmall.
  destruct (Z.eq_dec (transaction_amount (row l)) (first_amount l))
    as [E | N]; [exact E |].
  apply Hre in N. lia.
Qed.

Lemma amount_redrawn_only_above_300_witness :
  exists (users : list string) (data : list Locals) (w' : World),
    generate_trace env0 8 risky_world = Ok (users, data) w' /\
    Forall (fun l =>
              (transaction_amount (row l) <> first_amount l ->
               300 * 100 < first_amount l /\
               transaction_amount (row l) <= 300 * 100) /\
              (first_amount l <= 300 * 100 ->
               transaction_amount (row l) = first_amount l)) data.
Proof. run_on_risky_world amount_redrawn_only_above_300. Defined.




(** Every row names a merchant of the catalog with the category the
    catalog pairs it with, and its device type, payment method,
    transaction type and status are among the options listed in the code;
    its location ends with a country of [COUNTRIES]. *)
Theorem row_fields_come_from_the_lists :
  forall (env : Env) (n : Z) (w w' : World) (users : list string)
         (data : list Locals),
    generate_trace env n w = Ok (users, data) w' ->
    Forall (fun l =>
              let r := row l in
              (exists name : string,
                 In (name, merchant_category r) MERCHANTS /\
                 merchant_id r = ("merchant_" ++ name)%string) /\
              In (device_type r) ["mobile"; "desktop"; "tablet"] /\
              In (payment_method r)
                 ["credit_card"; "debit_card"; "digital_wallet";
                  "bank_transfer"] /\
              In (transaction_type r)
                 ["purchase"; "withdrawal"; "transfer"; "refund"] /\
              In (transaction_status r) ["completed"; "failed"; "pending"] /\
              exists (c s country : string),
                In country COUNTRIES /\
                geolocation r = (c ++ ", " ++ s ++ ", " ++ country)%string)
           data.
Proof.
  intros env n w w' users data H.
  pose proof (generate_trace_Forall env (fun _ => body_more env)
                (loop_body_tspec_more env) _ _ _ _ _ H) as Hmore.
  eapply Forall_impl; [| exact Hmore].
  intros l (Hm & Hd & Hp & Ht & Hs & Hg & _). cbv zeta. auto 10.
Qed.

Lemma row_fields_come_from_the_lists_witness :
  exists (users : list string) (data : list Locals) (w' : World),
    generate_trace env0 8 risky_world = Ok (users, data) w' /\
    Forall (fun l =>
              In (payment_method (row l))
                 ["credit_card"; "debit_card"; "digital_wallet";
                  "bank_transfer"]) data.
Proof.
  eexists _, _, _. split.
  - vm_compute. reflexivity.
  - eapply Forall_impl;
      [| eapply (row_fields_come_from_the_lists env0 8 risky_world);
         vm_compute; reflexivity].
    intros l Hl. apply Hl.
Defined.

(** ** The sizes the writer asks for *)

Lemma batch_sizes_nonpositive (total chunk : Z) :
  0 < chunk -> total <= 0 -> batch_sizes total chunk = [].
Proof.
  intros Hc Ht. unfold batch_sizes, py_range.
  destruct (chunk =? 0) eqn:E0; [apply Z.eqb_eq in E0; lia |].
  destruct (0 <? chunk) eqn:Epos; [| apply Z.ltb_ge in Epos; lia].
  assert (Hq : (total - 0 + chunk - 1) / chunk <= 0).
  { apply Z.lt_succ_r. apply Z.div_lt_upper_bound; lia. }
  replace (Z.to_nat ((total - 0 + chunk - 1) / chunk)) with 0%nat by lia.
  reflexivity.
Qed.

Lemma batch_sizes_step (total chunk : Z) :
  0 < chunk -> 0 < total ->
  batch_sizes total chunk
  = Z.min chunk total :: batch_sizes (total - chunk) chunk.
Proof.
  intros Hc Ht. unfold batch_sizes, py_range.
  destruct (chunk =? 0) eqn:E0; [apply Z.eqb_eq in E0; lia |].
  destruct (0 <? chunk) eqn:Epos; [| apply Z.ltb_ge in Epos; lia].
  set (q := (total - chunk - 0 + chunk - 1) / chunk).
  assert (Hq0 : 0 <= q) by (apply Z.div_pos; lia).
  assert (Hq : (total - 0 + chunk - 1) / chunk = q + 1).
  { unfold q.
    replace (total - 0 + chunk - 1)
      with (total - chunk - 0 + chunk - 1 + 1 * chunk) by lia.
    apply Z.div_add. lia. }
  rewrite Hq.
  replace (Z.to_nat (q + 1)) with (S (Z.to_nat q)) by lia.
  cbn [seq map]. f_equal.
  - f_equal. lia.
  - rewrite <- seq_shift, !map_map. apply map_ext.
    intros k. f_equal. lia.
Qed.

(** For a positive chunk size and a total that is not negative, the sizes
    asked for add up to the total, and each is at least 1 and at most the
    chunk size. *)
Theorem batch_sizes_cover_total :
  forall total chunk : Z,
    0 < chunk -> 0 <= total ->
    sum_sizes (batch_sizes total chunk) = total /\
    Forall (fun size => 1 <= size <= chunk) (batch_sizes total chunk).
Proof.
  intros total chunk Hc.
  assert (Hind : forall (fuel : nat) (t : Z),
             0 <= t -> (Z.to_nat t <= fuel)%nat ->
             sum_sizes (batch_sizes t chunk) = t /\
             Forall (fun size => 1 <= size <= chunk) (batch_sizes t chunk)).
  { induction fuel as [| fuel IH]; intros t Ht Hfuel.
    - assert (t = 0) by lia. subst t.
      rewrite batch_sizes_nonpositive by lia. split; [reflexivity | constructor].
    - destruct (Z.eq_dec t 0) as [-> | Hne].
      + rewrite batch_sizes_nonpositive by lia.
        split; [reflexivity | constructor].
      + rewrite batch_sizes_step by lia.
        destruct (Z_le_gt_dec chunk t) as [Hbig | Hsmall].
        * destruct (IH (t - chunk)) as [Hsum Hall]; [lia | lia |].
          cbn [sum_sizes fold_right]. fold (sum_sizes (batch_sizes (t - chunk) chunk)).
          rewrite Hsum. split; [lia |].
          constructor; [lia | exact Hall].
        * rewrite (batch_sizes_nonpositive (t - chunk)) by lia.
          cbn [sum_sizes fold_right]. split; [lia |].
          constructor; [lia | constructor]. }
  intros Ht. apply (Hind (Z.to_nat total)); [exact Ht | lia].
Qed.

Lemma batch_sizes_cover_total_witness :
  (0 < 50000 /\ 0 <= 120000) /\
  sum_sizes (batch_sizes 120000 50000) = 120000 /\
  Forall (fun size => 1 <= size <= 50000) (batch_sizes 120000 50000).
Proof.
  split; [lia |]. apply batch_sizes_cover_total; lia.
Defined.

(** When the chunk size is at least 8 and what is left for the last batch
    is nothing or at least 8, every size asked for is at least 8. *)
Lemma batch_sizes_at_least_8 (total chunk : Z) :
  8 <= chunk ->
  total mod chunk = 0 \/ 8 <= total mod chunk ->
  Forall (fun size => 8 <= size) (batch_sizes total chunk).
Proof.
  intros Hc.
  assert (Hind : forall (fuel : nat) (t : Z),
             (Z.to_nat t <= fuel)%nat ->
             t mod chunk = 0 \/ 8 <= t mod chunk ->
             Forall (fun size => 8 <= size) (batch_sizes t chunk)).
  { induction fuel as [| fuel IH]; intros t Hfuel Hmod.
    - rewrite batch_sizes_nonpositive by lia. constructor.
    - destruct (Z_le_gt_dec t 0) as [Hle | Hgt].
      + rewrite batch_sizes_nonpositive by lia. constructor.
      + rewrite batch_sizes_step by lia.
        destruct (Z_le_gt_dec chunk t) as [Hbig | Hsmall].
        * constructor; [lia |]. apply IH; [lia |].
          replace (t - chunk) with (t + (-1) * chunk) by lia.
          rewrite Z.mod_add by lia. exact Hmod.
        * rewrite (batch_sizes_nonpositive (t - chunk)) by lia.
          rewrite Z.mod_small in Hmod by lia.
          constructor; [lia | constructor]. }
  intros Hmod. apply (Hind (Z.to_nat total)); [lia | exact Hmod].
Qed.

(** ** Whole runs of the writer *)

Lemma length_concat_sizes (batches : list (list Transaction)) :
  Z.of_nat (List.length (List.concat batches))
  = sum_sizes (map (fun b => Z.of_nat (List.length b)) batches).
Proof.
  induction batches as [| b bs IH]; [reflexivity |].
  cbn [List.concat map sum_sizes fold_right].
  fold (sum_sizes (map (fun b => Z.of_nat (List.length b)) bs)).
  rewrite length_app, Nat2Z.inj_add, IH. reflexivity.
Qed.

(** On a system that does all it is asked: a run whose chunk size is at
    least 8 and whose last batch is not shorter than 8 rows ends without an
    error; it appends to the destination one header and then as many rows
    as the total. *)
Lemma stream_writes_header_and_total_rows :
  forall (env : Env) (filename output_dir : string) (total chunk : Z)
         (w : World),
    8 <= chunk -> 0 < total ->
    total mod chunk = 0 \/ 8 <= total mod chunk ->
    exists (written : list Transaction) (w' : World),
      stream_to_csv env filename output_dir total chunk w = Ok tt w' /\
      contents (fs w') (path_join output_dir filename)
      = contents (fs w) (path_join output_dir filename)
        ++ Header COLUMNS :: map Data written /\
      Z.of_nat (List.length written) = total.
Proof.
  intros env filename output_dir total chunk w Hc Ht Hmod.
  destruct (stream_ok env filename output_dir total chunk w)
    as (batches & w' & E & Hb & Hf).
  - lia.
  - apply batch_sizes_at_least_8; assumption.
  - exists (List.concat batches), w'. split; [exact E |]. split.
    + rewrite Hf. rewrite batch_sizes_step by lia. reflexivity.
    + rewrite length_concat_sizes, Hb.
      apply batch_sizes_cover_total; lia.
Qed.


(** The loop over the offsets, split in two: the second part runs from
    the world the first part leaves, and writes a header only when the
    first part was empty. *)
Lemma write_chunks_app (env : Env) (path : string) (total chunk : Z)
    (offsets1 offsets2 : list Z) :
  forall (first : bool) (w : World),
    write_chunks env path total chunk (offsets1 ++ offsets2) first w
    = match write_chunks env path total chunk offsets1 first w with
      | Ok _ w1 =>
          write_chunks env path total chunk offsets2
            (match offsets1 with [] => first | _ :: _ => false end) w1
      | Raise e w1 => Raise e w1
      end.
Proof.
  induction offsets1 as [| i rest IH]; intros first w; [reflexivity |].
  cbn [app write_chunks]. unfold bind, to_csv.
  destruct (generate_fraud_data_chunk env (Z.min chunk (total - i)) w)
    as [df w1 | e w1]; [| reflexivity].
  rewrite IH. destruct rest; reflexivity.
Qed.

Lemma sum_sizes_constant (sizes : list Z) (c : Z) :
  Forall (fun size => size = c) sizes ->
  sum_sizes sizes = c * Z.of_nat (List.length sizes).
Proof.
  induction 1 as [| x l Hx Hl IH]; [cbn; lia |].
  cbn [sum_sizes fold_right List.length]. fold (sum_sizes l).
  rewrite IH, Hx. lia.
Qed.

(** On a system that does all it is asked: a run whose last batch would
    have 1 to 7 rows raises IndexError at that batch.  What was written
    before stays: the header and the rows of the full batches, or nothing
    when the total is below the chunk size. *)
Lemma stream_fails_on_short_last_batch :
  forall (env : Env) (filename output_dir : string) (total chunk : Z)
         (w : World),
    8 <= chunk -> 0 < total ->
    1 <= total mod chunk <= 7 ->
    exists (written : list Transaction) (w' : World),
      stream_to_csv env filename output_dir total chunk w
      = Raise IndexError w' /\
      contents (fs w') (path_join output_dir filename)
      = contents (fs w) (path_join output_dir filename)
        ++ (if total <? chunk then []
            else Header COLUMNS :: map Data written) /\
      Z.of_nat (List.length written) = total - total mod chunk.
Proof.
  intros env filename output_dir total chunk w Hc Ht Hr.
  set (path := path_join output_dir filename).
  pose proof (Z.div_mod total chunk ltac:(lia)) as Hdm.
  assert (Hq0 : 0 <= total / chunk) by (apply Z.div_pos; lia).
  set (q := total / chunk) in *. set (r := total mod chunk) in *.
  set (f := fun k : nat => 0 + chunk * Z.of_nat k).
  assert (Hrange : py_range 0 total chunk
                   = Some (map f (seq 0 (Z.to_nat q)) ++ [f (Z.to_nat q)])).
  { unfold py_range.
    destruct (chunk =? 0) eqn:E0; [apply Z.eqb_eq in E0; lia |].
    destruct (0 <? chunk) eqn:Epos; [| apply Z.ltb_ge in Epos; lia].
    replace ((total - 0 + chunk - 1) / chunk) with (q + 1)
      by (apply Z.div_unique with (r := r - 1); lia).
    replace (Z.to_nat (q + 1)) with (S (Z.to_nat q)) by lia.
    rewrite seq_S, map_app. reflexivity. }
  assert (Hgood : Forall (fun i => Z.min chunk (total - i) = chunk)
                    (map f (seq 0 (Z.to_nat q)))).
  { rewrite Forall_map, Forall_forall. intros k Hk.
    apply in_seq in Hk. unfold f.
    assert (Z.of_nat k <= q - 1) by lia.
    assert (chunk * Z.of_nat k <= chunk * (q - 1)) by nia.
    lia. }
  destruct (write_chunks_ok env path total chunk (map f (seq 0 (Z.to_nat q))))
    with (first := true) (w := w) as (batches & w1 & E1 & Hsizes & Hfile).
  { eapply Forall_impl; [| exact Hgood]. cbv beta. intros i Hi. lia. }
  exists (List.concat batches), w1.
  assert (Hlast : Z.min chunk (total - f (Z.to_nat q)) = r).
  { unfold f. rewrite Z2Nat.id by lia. lia. }
  split; [| split].
  - unfold stream_to_csv. fold path. rewrite Hrange, write_chunks_app, E1.
    cbn [write_chunks]. unfold bind at 1.
    rewrite Hlast, chunk_small by lia. reflexivity.
  - rewrite Hfile. f_equal.
    destruct (Z.to_nat q) as [| qn] eqn:Eq.
    + cbn [seq map] in *. destruct batches; [| discriminate Hsizes].
      assert (total < chunk) by nia.
      replace (total <? chunk) with true by (symmetry; apply Z.ltb_lt; lia).
      reflexivity.
    + assert (chunk <= total) by nia.
      replace (total <? chunk) with false by (symmetry; apply Z.ltb_ge; lia).
      reflexivity.
  - rewrite length_concat_sizes, Hsizes.
    rewrite (sum_sizes_constant _ chunk).
    + rewrite !length_map, length_seq, Z2Nat.id by lia. lia.
    + rewrite Forall_map. exact Hgood.
Qed.


(** ** Code that does not look at the files *)

Lemma fs_blind_ret {A} (a : A) : fs_blind (ret a).
Proof. intros w f. reflexivity. Qed.

Lemma fs_blind_raise {A} (e : exn) : fs_blind (@raise A e).
Proof. intros w f. reflexivity. Qed.

Lemma fs_blind_bind {A B} (m : M A) (k : A -> M B) :
  fs_blind m -> (forall a, fs_blind (k a)) -> fs_blind (bind m k).
Proof.
  intros Hm Hk w f. unfold bind. rewrite Hm.
  destruct (m w) as [a w1 | e w1]; cbn [result_with_fs];
    [apply Hk | reflexivity].
Qed.

Lemma fs_blind_next_mt : fs_blind next_mt.
Proof. intros w f. reflexivity. Qed.

Lemma fs_blind_next_fk : fs_blind next_fk.
Proof. intros w f. reflexivity. Qed.

Ltac fs_blind_steps :=
  repeat match goal with
         | |- fs_blind (bind _ _) => apply fs_blind_bind; [| intros]
         | |- fs_blind (ret _) => apply fs_blind_ret
         | |- fs_blind (raise _) => apply fs_blind_raise
         | |- fs_blind next_mt => apply fs_blind_next_mt
         | |- fs_blind next_fk => apply fs_blind_next_fk
         | |- fs_blind (if ?c then _ else _) => destruct c
         | |- fs_blind (let '(_, _) := ?p in _) => destruct p
         | |- fs_blind (match ?l with [] => _ | _ :: _ => _ end) => destruct l
         | H : fs_blind ?m |- fs_blind ?m => exact H
         end.

Lemma fs_blind_random_random : fs_blind random_random.
Proof. unfold random_random. fs_blind_steps. Qed.

Lemma fs_blind_randint (a b : Z) : fs_blind (randint a b).
Proof. unfold randint. fs_blind_steps. Qed.

Lemma fs_blind_choice {A} (l : list A) : fs_blind (choice l).
Proof. unfold choice. fs_blind_steps. Qed.

Lemma fs_blind_choices {A} (population : list A) (ws : list Z) :
  fs_blind (choices population ws).
Proof.
  unfold choices, random_random. destruct population; fs_blind_steps.
Qed.

Lemma fs_blind_uniform_round2 (a b : Z) : fs_blind (uniform_round2 a b).
Proof. unfold uniform_round2. fs_blind_steps. Qed.

Lemma fs_blind_replicateM {A} (n : nat) (m : M A) :
  fs_blind m -> fs_blind (replicateM n m).
Proof.
  intros Hm. induction n as [| n IH]; cbn [replicateM]; fs_blind_steps.
Qed.

Lemma fs_blind_clock (env : Env) : fs_blind (clock env).
Proof. intros w f. reflexivity. Qed.

Lemma fs_blind_loop_body (env : Env) (users : list string) :
  fs_blind (loop_body env users).
Proof.
  unfold loop_body, uuid4, city, state_abbr, ipv4_private, ipv4_public,
    date_time_between, replace_hour.
  repeat first
    [ apply fs_blind_choice | apply fs_blind_choices | apply fs_blind_clock
    | apply fs_blind_random_random | apply fs_blind_randint
    | apply fs_blind_uniform_round2
    | progress fs_blind_steps ].
Qed.

Lemma fs_blind_generate_trace (env : Env) (n : Z) :
  fs_blind (generate_trace env n).
Proof.
  unfold generate_trace, make_users, uuid4.
  apply fs_blind_bind.
  - apply fs_blind_replicateM. fs_blind_steps.
  - intros users. apply fs_blind_bind; [| intros; apply fs_blind_ret].
    apply fs_blind_replicateM, fs_blind_loop_body.
Qed.

Lemma fs_blind_chunk (env : Env) (n : Z) :
  fs_blind (generate_fraud_data_chunk env n).
Proof.
  unfold generate_fraud_data_chunk.
  apply fs_blind_bind; [apply fs_blind_generate_trace |].
  intros [users data]. apply fs_blind_ret.
Qed.

(** For every count, and whether it returns or raises, the synthesizer
    leaves every file as it was, and on other files it returns the same
    batch or raises the same error from the same draws. *)
Theorem synthesizer_ignores_files :
  forall (env : Env) (n : Z) (w : World),
    fs (world_after (generate_fraud_data_chunk env n w)) = fs w /\
    forall f : string -> option (list Line),
      generate_fraud_data_chunk env n (with_fs w f)
      = result_with_fs (generate_fraud_data_chunk env n w) f.
Proof.
  intros env n w. split; [| intros f; apply fs_blind_chunk].
  destruct (Z_le_gt_dec n 0) as [Hle | Hgt].
  - rewrite chunk_nonpositive by exact Hle. reflexivity.
  - destruct (Z_le_gt_dec 8 n) as [H8 | Hsmall].
    + destruct (chunk_ok env n w H8) as (df & w' & E & _ & _ & F).
      rewrite E. exact F.
    + rewrite chunk_small by lia. reflexivity.
Qed.

(** ** Runs on an operating system *)

Lemma quiet_answer (s : OS.Sys) :
  OS.quiet s -> OS.answers s (OS.asked s) = OS.Does.
Proof. intros Hq. apply Hq. apply Nat.le_refl. Qed.

Lemma quiet_later (s : OS.Sys) (w : World) (d : list string) (n : nat) :
  OS.quiet s -> (OS.asked s <= n)%nat ->
  OS.quiet (OS.mkSys w d (OS.answers s) n).
Proof.
  intros Hq Hn k Hk. cbn [OS.answers OS.asked] in *. apply Hq.
  eapply Nat.le_trans; eassumption.
Qed.

(** While the system refuses nothing, the loop over the offsets does to
    the world what the loop without the system does, and it makes no
    directory. *)
Lemma os_write_chunks_quiet (env : Env) (path : string) (total chunk : Z)
    (offsets : list Z) :
  forall (first : bool) (s : OS.Sys),
    OS.quiet s ->
    OS.forget (OS.write_chunks env path total chunk offsets first s)
    = write_chunks env path total chunk offsets first (OS.world s) /\
    OS.dirs (OS.state_after
               (OS.write_chunks env path total chunk offsets first s))
    = OS.dirs s.
Proof.
  induction offsets as [| i rest IH]; intros first s Hq.
  - split; reflexivity.
  - cbn [OS.write_chunks write_chunks]. unfold OS.and_then, OS.lift, bind.
    destruct (generate_fraud_data_chunk env (Z.min chunk (total - i))
                (OS.world s)) as [df w1 | e w1]; [| split; reflexivity].
    unfold OS.to_csv, to_csv. cbn [OS.answers OS.asked OS.world OS.dirs].
    rewrite (quiet_answer s Hq).
    exact (IH false
             (OS.mkSys
                (with_fs w1 (fs_append (fs w1) path (csv_lines df first)))
                (OS.dirs s) (OS.answers s) (S (OS.asked s)))
             (quiet_later s _ _ _ Hq (Nat.le_succ_diag_r _))).
Qed.

Lemma os_stream_quiet (env : Env) (filename output_dir : string)
    (total chunk : Z) (s : OS.Sys) :
  OS.quiet s ->
  OS.forget (OS.stream_to_csv env filename output_dir total chunk s)
  = stream_to_csv env filename output_dir total chunk (OS.world s) /\
  OS.dirs (OS.state_after
             (OS.stream_to_csv env filename output_dir total chunk s))
  = OS.ancestors (parse_path output_dir) ++ OS.dirs s.
Proof.
  intros Hq. unfold OS.stream_to_csv, stream_to_csv, OS.and_then, OS.mkdir.
  rewrite (quiet_answer s Hq).
  destruct (py_range 0 total chunk) as [offsets |]; [| split; reflexivity].
  exact (os_write_chunks_quiet env _ total chunk offsets true
           (OS.mkSys (OS.world s)
              (OS.ancestors (parse_path output_dir) ++ OS.dirs s)
              (OS.answers s) (S (OS.asked s)))
           (quiet_later s _ _ _ Hq (Nat.le_succ_diag_r _))).
Qed.

Lemma forget_Ok {A} (r : OS.outcome A) (a : A) (w : World) :
  OS.forget r = Ok a w ->
  exists s' : OS.Sys, r = OS.Done a s' /\ OS.world s' = w.
Proof.
  destruct r as [a' s' | e s']; cbn [OS.forget]; intros H;
    [injection H as -> <- | discriminate H].
  exists s'. auto.
Qed.

Lemma forget_Raise {A} (r : OS.outcome A) (e : exn) (w : World) :
  OS.forget r = Raise e w ->
  exists s' : OS.Sys, r = OS.Failed e s' /\ OS.world s' = w.
Proof.
  destruct r as [a' s' | e' s']; cbn [OS.forget]; intros H;
    [discriminate H | injection H as -> <-].
  exists s'. auto.
Qed.

(** When the system refuses nothing, the chunk size is at least 8, the
    total is positive and the last batch is not shorter than 8 rows, the
    run ends without an error: it has made sure of the output directory
    and appended to the destination one header and then as many rows as
    the total. *)
Theorem run_writes_header_and_total_rows :
  forall (env : Env) (filename output_dir : string) (total chunk : Z)
         (s : OS.Sys),
    OS.quiet s ->
    8 <= chunk -> 0 < total ->
    total mod chunk = 0 \/ 8 <= total mod chunk ->
    exists (written : list Transaction) (s' : OS.Sys),
      OS.stream_to_csv env filename output_dir total chunk s
      = OS.Done tt s' /\
      contents (fs (OS.world s')) (path_join output_dir filename)
      = contents (fs (OS.world s)) (path_join output_dir filename)
        ++ Header COLUMNS :: map Data written /\
      Z.of_nat (List.length written) = total /\
      OS.dirs s' = OS.ancestors (parse_path output_dir) ++ OS.dirs s.
Proof.
  intros env filename output_dir total chunk s Hq Hc Ht Hmod.
  destruct (os_stream_quiet env filename output_dir total chunk s Hq)
    as [Hrun Hdirs].
  destruct (stream_writes_header_and_total_rows env filename output_dir
              total chunk (OS.world s) Hc Ht Hmod)
    as (written & w' & E & Hfile & Hlen).
  rewrite E in Hrun. apply forget_Ok in Hrun.
  destruct Hrun as (s' & Es & <-).
  exists written, s'. rewrite Es in Hdirs. auto.
Qed.

Lemma run_writes_header_and_total_rows_witness :
  exists (written : list Transaction) (s' : OS.Sys),
    OS.stream_to_csv env0 "fraud_data.csv" "Data_Simulation" 500000 50000
      (OS.willing plain_world) = OS.Done tt s' /\
    contents (fs (OS.world s')) "Data_Simulation/fraud_data.csv"
    = Header COLUMNS :: map Data written /\
    Z.of_nat (List.length written) = 500000 /\
    OS.dirs s' = ["Data_Simulation"].
Proof.
  destruct (run_writes_header_and_total_rows env0 "fraud_data.csv"
              "Data_Simulation" 500000 50000 (OS.willing plain_world))
    as (written & s' & E & Hfile & Hlen & Hdirs).
  - intros n _. reflexivity.
  - lia.
  - lia.
  - left. reflexivity.
  - exists written, s'. auto.
Defined.

(** When the system refuses nothing, the chunk size is at least 8, the
    total is positive and the last batch would have 1 to 7 rows, the run
    raises IndexError at that batch.  What was written before stays: the
    header and the rows of the full batches, or nothing when the total is
    below the chunk size. *)
Theorem run_fails_on_short_last_batch :
  forall (env : Env) (filename output_dir : string) (total chunk : Z)
         (s : OS.Sys),
    OS.quiet s ->
    8 <= chunk -> 0 < total ->
    1 <= total mod chunk <= 7 ->
    exists (written : list Transaction) (s' : OS.Sys),
      OS.stream_to_csv env filename output_dir total chunk s
      = OS.Failed IndexError s' /\
      contents (fs (OS.world s')) (path_join output_dir filename)
      = contents (fs (OS.world s)) (path_join output_dir filename)
        ++ (if total <? chunk then []
            else Header COLUMNS :: map Data written) /\
      Z.of_nat (List.length written) = total - total mod chunk.
Proof.
  intros env filename output_dir total chunk s Hq Hc Ht Hmod.
  destruct (os_stream_quiet env filename output_dir total chunk s Hq)
    as [Hrun _].
  destruct (stream_fails_on_short_last_batch env filename output_dir
              total chunk (OS.world s) Hc Ht Hmod)
    as (written & w' & E & Hfile & Hlen).
  rewrite E in Hrun. apply forget_Raise in Hrun.
  destruct Hrun as (s' & Es & <-).
  exists written, s'. auto.
Qed.

Lemma run_fails_on_short_last_batch_witness :
  exists (written : list Transaction) (s' : OS.Sys),
    OS.stream_to_csv env0 "fraud_data.csv" "out" 100003 50000
      (OS.willing plain_world) = OS.Failed IndexError s' /\
    contents (fs (OS.world s')) "out/fraud_data.csv"
    = Header COLUMNS :: map Data written /\
    Z.of_nat (List.length written) = 100000.
Proof.
  assert (Hmod : 100003 mod 50000 = 3) by reflexivity.
  destruct (run_fails_on_short_last_batch env0 "fraud_data.csv" "out"
              100003 50000 (OS.willing plain_world))
    as (written & s' & E & Hfile & Hlen).
  - intros n _. reflexivity.
  - lia.
  - lia.
  - rewrite Hmod. lia.
  - exists written, s'. rewrite Hmod in Hlen. auto.
Defined.

Lemma py_range_empty (total chunk : Z) :
  (0 < chunk /\ total <= 0) \/ (chunk < 0 /\ 0 <= total) ->
  py_range 0 total chunk = Some [].
Proof.
  intros Hcase. unfold py_range.
  destruct (chunk =? 0) eqn:E0; [apply Z.eqb_eq in E0; lia |].
  destruct Hcase as [[Hc Ht] | [Hc Ht]].
  - destruct (0 <? chunk) eqn:Epos; [| apply Z.ltb_ge in Epos; lia].
    assert (Hq : (total - 0 + chunk - 1) / chunk <= 0).
    { apply Z.lt_succ_r. apply Z.div_lt_upper_bound; lia. }
    replace (Z.to_nat ((total - 0 + chunk - 1) / chunk)) with 0%nat by lia.
    reflexivity.
  - destruct (0 <? chunk) eqn:Epos; [apply Z.ltb_lt in Epos; lia |].
    assert (Hq : (0 - total - chunk - 1) / (- chunk) <= 0).
    { apply Z.lt_succ_r. apply Z.div_lt_upper_bound; lia. }
    replace (Z.to_nat ((0 - total - chunk - 1) / (- chunk))) with 0%nat by lia.
    reflexivity.
Qed.

(** With a positive chunk size and a total of 0 or below, or a negative
    chunk size and a total of 0 or above, there is no batch: if the system
    makes the output directory the run returns, and with a chunk size of 0
    it raises ValueError after the directory was made; if the system
    refuses the directory, both raise OSError.  In every case the files
    are as they were: no file is made, not even an empty one. *)
Theorem run_without_a_batch :
  forall (env : Env) (filename output_dir : string) (total chunk : Z)
         (s : OS.Sys),
    (0 < chunk /\ total <= 0) \/ (chunk < 0 /\ 0 <= total) ->
    fs (OS.world (OS.state_after
                    (OS.stream_to_csv env filename output_dir total chunk s)))
    = fs (OS.world s) /\
    fs (OS.world (OS.state_after
                    (OS.stream_to_csv env filename output_dir total 0 s)))
    = fs (OS.world s) /\
    (OS.answers s (OS.asked s) = OS.Does ->
     exists s' : OS.Sys,
       OS.dirs s' = OS.ancestors (parse_path output_dir) ++ OS.dirs s /\
       OS.stream_to_csv env filename output_dir total chunk s
       = OS.Done tt s' /\
       OS.stream_to_csv env filename output_dir total 0 s
       = OS.Failed ValueError s') /\
    (forall done : nat,
       OS.answers s (OS.asked s) = OS.Refuses done ->
       exists s' : OS.Sys,
         OS.stream_to_csv env filename output_dir total chunk s
         = OS.Failed OSError s' /\
         OS.stream_to_csv env filename output_dir total 0 s
         = OS.Failed OSError s').
Proof.
  intros env filename output_dir total chunk s Hcase.
  unfold OS.stream_to_csv, OS.and_then, OS.mkdir.
  rewrite (py_range_empty total chunk Hcase).
  change (py_range 0 total 0) with (@None (list Z)).
  destruct (OS.answers s (OS.asked s)) as [| done] eqn:E;
    cbn [OS.write_chunks OS.state_after OS.world].
  - repeat split; try reflexivity.
    + intros _. eexists. repeat split; reflexivity.
    + intros done H. discriminate H.
  - repeat split; try reflexivity.
    + intros H. discriminate H.
    + intros done' H. eexists. split; reflexivity.
Qed.

Lemma run_without_a_batch_witness :
  exists s' : OS.Sys,
    OS.dirs s' = ["out"] /\
    OS.stream_to_csv env0 "fraud_data.csv" "out" 0 50000
      (OS.willing plain_world) = OS.Done tt s' /\
    OS.stream_to_csv env0 "fraud_data.csv" "out" 0 0
      (OS.willing plain_world) = OS.Failed ValueError s'.
Proof.
  apply (run_without_a_batch env0 "fraud_data.csv" "out" 0 50000
           (OS.willing plain_world)).
  - left. lia.
  - reflexivity.
Defined.

(** When the system refuses nothing, the call at the end of the file and
    [main] without any option each append one header and 500,000 rows,
    the first to Data_Simulation/fraud_data.csv and the second to
    output/fraud_data.csv, after making sure of that directory. *)
Theorem script_and_main_write_500000_rows :
  forall (env : Env) (s : OS.Sys),
    OS.quiet s ->
    (exists (written : list Transaction) (s' : OS.Sys),
       OS.script env s = OS.Done tt s' /\
       contents (fs (OS.world s')) "Data_Simulation/fraud_data.csv"
       = contents (fs (OS.world s)) "Data_Simulation/fraud_data.csv"
         ++ Header COLUMNS :: map Data written /\
       Z.of_nat (List.length written) = 500000 /\
       OS.dirs s' = "Data_Simulation" :: OS.dirs s) /\
    (exists (written : list Transaction) (s' : OS.Sys),
       OS.main env (OS.mkArgs None None None None) s = OS.Done tt s' /\
       contents (fs (OS.world s')) "output/fraud_data.csv"
       = contents (fs (OS.world s)) "output/fraud_data.csv"
         ++ Header COLUMNS :: map Data written /\
       Z.of_nat (List.length written) = 500000 /\
       OS.dirs s' = "output" :: OS.dirs s).
Proof.
  intros env s Hq.
  assert (Hmod : 500000 mod 50000 = 0 \/ 8 <= 500000 mod 50000)
    by (left; reflexivity).
  assert (Hrun : forall dir : string,
             exists (written : list Transaction) (s' : OS.Sys),
               OS.stream_to_csv env "fraud_data.csv" dir 500000 50000 s
               = OS.Done tt s' /\
               contents (fs (OS.world s')) (path_join dir "fraud_data.csv")
               = contents (fs (OS.world s)) (path_join dir "fraud_data.csv")
                 ++ Header COLUMNS :: map Data written /\
               Z.of_nat (List.length written) = 500000 /\
               OS.dirs s' = OS.ancestors (parse_path dir) ++ OS.dirs s).
  { intros dir.
    destruct (os_stream_quiet env "fraud_data.csv" dir 500000 50000 s Hq)
      as [Hforget Hdirs].
    destruct (stream_writes_header_and_total_rows env "fraud_data.csv" dir
                500000 50000 (OS.world s) ltac:(lia) ltac:(lia) Hmod)
      as (written & w' & E & Hfile & Hlen).
    rewrite E in Hforget. apply forget_Ok in Hforget.
    destruct Hforget as (s' & Es & <-).
    exists written, s'. rewrite Es in Hdirs. auto. }
  split; [exact (Hrun "Data_Simulation") | exact (Hrun "output")].
Qed.

Lemma script_and_main_write_500000_rows_witness :
  exists (written : list Transaction) (s' : OS.Sys),
    OS.script env0 (OS.willing plain_world) = OS.Done tt s' /\
    contents (fs (OS.world s')) "Data_Simulation/fraud_data.csv"
    = Header COLUMNS :: map Data written /\
    Z.of_nat (List.length written) = 500000.
Proof.
  destruct (script_and_main_write_500000_rows env0 (OS.willing plain_world))
    as [(written & s' & E & Hfile & Hlen & _) _].
  - intros n _. reflexivity.
  - exists written, s'. auto.
Defined.

Lemma chunk_leaves_files (env : Env) (n : Z) (w : World) :
  fs (world_after (generate_fraud_data_chunk env n w)) = fs w.
Proof.
  destruct (Z_le_gt_dec n 0) as [Hle | Hgt].
  - rewrite chunk_nonpositive by exact Hle. reflexivity.
  - destruct (Z_le_gt_dec 8 n) as [H8 | Hsmall].
    + destruct (chunk_ok env n w H8) as (df & w' & E & _ & _ & F).
      rewrite E. exact F.
    + rewrite chunk_small by lia. reflexivity.
Qed.

Lemma Forall_firstn_data (k : nat) (ls : list Line) :
  Forall (fun l => is_data l = true) ls ->
  Forall (fun l => is_data l = true) (firstn k ls).
Proof.
  intros H. revert k. induction H as [| x l Hx Hl IH]; intros [| k];
    cbn [firstn]; constructor; auto.
Qed.

Lemma csv_lines_data_after_header (df : DataFrame) (first : bool) (k : nat) :
  Forall (fun l => is_data l = true)
    (if first then tl (firstn k (csv_lines df first))
     else firstn k (csv_lines df first)).
Proof.
  assert (Hrows : Forall (fun l => is_data l = true) (map Data (rows df))).
  { rewrite Forall_map. apply Forall_forall. reflexivity. }
  unfold csv_lines. destruct first; cbn [app].
  - destruct k as [| k]; cbn [firstn tl]; [constructor |].
    apply Forall_firstn_data, Hrows.
  - apply Forall_firstn_data, Hrows.
Qed.

(** Whatever the system answers, the loop over the offsets leaves the
    lines of the file at [path] in front of what it adds, and a header can
    only be the first line added, and only for a first chunk. *)
Lemma os_write_chunks_appends (env : Env) (path : string) (total chunk : Z)
    (offsets : list Z) :
  forall (first : bool) (s : OS.Sys),
  exists added : list Line,
    contents
      (fs (OS.world
             (OS.state_after
                (OS.write_chunks env path total chunk offsets first s))))
      path
    = contents (fs (OS.world s)) path ++ added /\
    Forall (fun l => is_data l = true) (if first then tl added else added).
Proof.
  induction offsets as [| i rest IH]; intros first s.
  - exists []. cbn [OS.write_chunks OS.state_after]. rewrite app_nil_r.
    split; [reflexivity | destruct first; constructor].
  - cbn [OS.write_chunks]. unfold OS.and_then, OS.lift.
    pose proof (chunk_leaves_files env (Z.min chunk (total - i)) (OS.world s))
      as Hfs.
    destruct (generate_fraud_data_chunk env (Z.min chunk (total - i))
                (OS.world s)) as [df w1 | e w1]; cbn [world_after] in Hfs.
    + unfold OS.to_csv. cbn [OS.answers OS.asked OS.world OS.dirs].
      destruct (OS.answers s (OS.asked s)) as [| [| done]].
      * destruct (IH false
                    (OS.mkSys
                       (with_fs w1
                          (fs_append (fs w1) path (csv_lines df first)))
                       (OS.dirs s) (OS.answers s) (S (OS.asked s))))
          as (added & Hc & Hdata).
        exists (csv_lines df first ++ added). split.
        { rewrite Hc. cbn [OS.world fs with_fs].
          rewrite contents_fs_append, Hfs, app_assoc. reflexivity. }
        pose proof (csv_lines_data_after_header df first
                      (List.length (csv_lines df first))) as Hl.
        rewrite firstn_all in Hl.
        unfold csv_lines in *. destruct first; cbn [app tl] in *;
          apply Forall_app; split; assumption.
      * exists []. cbn [OS.state_after OS.world]. rewrite Hfs, app_nil_r.
        split; [reflexivity | destruct first; constructor].
      * exists (firstn done (csv_lines df first)).
        cbn [OS.state_after OS.world fs with_fs].
        rewrite contents_fs_append, Hfs.
        split; [reflexivity | apply csv_lines_data_after_header].
    + exists []. cbn [OS.state_after OS.world]. rewrite Hfs, app_nil_r.
      split; [reflexivity | destruct first; constructor].
Qed.

(** Whatever the arguments, whatever the system answers and however the
    run ends, the lines that were in the destination stay, in front of
    what the run adds, and among the added lines only the first can be a
    header. *)
Theorem run_only_appends_to_destination :
  forall (env : Env) (filename output_dir : string) (total chunk : Z)
         (s : OS.Sys),
  exists added : list Line,
    contents
      (fs (OS.world
             (OS.state_after
                (OS.stream_to_csv env filename output_dir total chunk s))))
      (path_join output_dir filename)
    = contents (fs (OS.world s)) (path_join output_dir filename) ++ added /\
    Forall (fun l => is_data l = true) (tl added).
Proof.
  intros env filename output_dir total chunk s.
  unfold OS.stream_to_csv, OS.and_then, OS.mkdir.
  destruct (OS.answers s (OS.asked s)) as [| done].
  - destruct (py_range 0 total chunk) as [offsets |].
    + destruct (os_write_chunks_appends env (path_join output_dir filename)
                  total chunk offsets true
                  (OS.mkSys (OS.world s)
                     (OS.ancestors (parse_path output_dir) ++ OS.dirs s)
                     (OS.answers s) (S (OS.asked s))))
        as (added & Hc & Hdata).
      exists added. split; [exact Hc | exact Hdata].
    + exists []. cbn [OS.state_after OS.world tl]. rewrite app_nil_r.
      split; [reflexivity | constructor].
  - exists []. cbn [OS.state_after OS.world tl]. rewrite app_nil_r.
    split; [reflexivity | constructor].
Qed.
